(** * DynamicGraphTemporalSignalBatch

    A shallow embedding of
    [torch_geometric_temporal/signal/dynamic_graph_temporal_signal_batch.py]:
    the container of five parallel lists of NumPy arrays (edge indices, edge
    weights, node features, targets, batch vectors) plus named additional
    lists, its length validation, the conversion of one time step into a
    PyTorch Geometric [Batch], and the iterator protocol over the time steps.

    Python values are modelled by value: a [list] is a Rocq list, an [int] is
    a [Z], a raised exception is the [Raise] branch of [result].  The object
    [self] is a record holding the attributes the class assigns; the
    attributes created by [setattr(self, key, value)] live in an ordered
    dictionary inside that record.

    The class calls into two libraries, [torch] for the tensors and
    [torch_geometric] for the [Batch].  Their code is not part of the class:
    a [library] stands for them, each of its calls may raise, and what a call
    returns is constrained only where [conforms] says so. *)

From Stdlib Require Import ZArith List String Bool Lia.
From Stdlib Require Import Floats.SpecFloat.
Import ListNotations.

Local Open Scope string_scope.
Local Open Scope list_scope.
Local Open Scope Z_scope.

(** ** Exceptions and results *)

(** What a call into a library raises, or the call of [Batch] itself when a
    keyword comes twice.  [torch] raises [TypeError], [ValueError] and
    [RuntimeError] for the arrays it does not convert; [OtherError] stands
    for any other exception class.  An exception that comes out of a library
    is kept apart, as [LibraryError], from the four that the statements of
    the class raise: the [assert], the indexing of a list, the lookup of an
    attribute, the end of the iteration. *)
Inductive library_error : Type :=
| TypeError
| ValueError
| RuntimeError
| OtherError (name : string).

Inductive exception : Type :=
| AssertionError (message : string)
| IndexError
| AttributeError (name : string)
| StopIteration
| LibraryError (e : library_error).

Inductive result (A : Type) : Type :=
| Ok (a : A)
| Raise (e : exception).

Arguments Ok {A} a.
Arguments Raise {A} e.

Definition bind {A B : Type} (r : result A) (k : A -> result B) : result B :=
  match r with
  | Ok a => k a
  | Raise e => Raise e
  end.

Notation "x <- r ;; k" := (bind r (fun x => k))
  (at level 61, r at next level, right associativity).

(** [assert condition, message] *)
Definition assert (condition : bool) (message : string) : result unit :=
  if condition then Ok tt else Raise (AssertionError message).

(** [for a in l: body(a)], stopping at the first exception. *)
Fixpoint for_each {A : Type} (l : list A) (body : A -> result unit)
  : result unit :=
  match l with
  | [] => Ok tt
  | a :: l' => _ <- body a ;; for_each l' body
  end.

(** ** Python lists and dictionaries *)

Definition len {A : Type} (l : list A) : Z := Z.of_nat (List.length l).

(** [l[i]]: a negative index counts from the end; an index that is still
    outside [0, len(l)) after that raises [IndexError]. *)
Definition getitem {A : Type} (l : list A) (i : Z) : result A :=
  let j := if i <? 0 then i + len l else i in
  if (j <? 0) || (len l <=? j) then Raise IndexError
  else match nth_error l (Z.to_nat j) with
       | Some a => Ok a
       | None => Raise IndexError
       end.

(** A [dict] with [str] keys: insertion ordered, one entry per key. *)
Definition dict (V : Type) : Type := list (string * V).

Fixpoint dict_get {V : Type} (d : dict V) (key : string) : option V :=
  match d with
  | [] => None
  | (k, v) :: d' => if String.eqb key k then Some v else dict_get d' key
  end.

Fixpoint dict_set {V : Type} (d : dict V) (key : string) (value : V) : dict V :=
  match d with
  | [] => [(key, value)]
  | (k, v) :: d' =>
      if String.eqb key k then (k, value) :: d'
      else (k, v) :: dict_set d' key value
  end.

Definition dict_keys {V : Type} (d : dict V) : list string := map fst d.

(** ** NumPy arrays

    An array is its shape and its elements in row-major order; an array of no
    dimension (shape [[]]) holds one element.  The element type fixes
    [dtype.kind]: ["b"] boolean, ["i"] signed integer (8 to 64 bits), ["u"]
    unsigned integer (8 to 64 bits), ["f"] floating point (of 16, 32 or 64
    bits every value is a binary64 number).  Of an array of another kind
    (complex numbers, byte or unicode strings, objects, dates, time spans,
    records) only the number of elements is kept. *)

Inductive other_kind : Type :=
| complex
| bytes
| unicode
| object
| datetime
| timedelta
| void.

Inductive elements : Type :=
| Bools (bs : list bool)
| Ints (zs : list Z)
| UInts (zs : list Z)
| Floats (fs : list spec_float)
| Other (k : other_kind) (count : nat).

Record ndarray : Type := {
  shape : list nat;
  buffer : elements
}.

Record np_dtype : Type := { kind : string }.

Definition kind_of (k : other_kind) : string :=
  match k with
  | complex => "c"
  | bytes => "S"
  | unicode => "U"
  | object => "O"
  | datetime => "M"
  | timedelta => "m"
  | void => "V"
  end.

Definition dtype (a : ndarray) : np_dtype :=
  {| kind := match buffer a with
             | Bools _ => "b"
             | Ints _ => "i"
             | UInts _ => "u"
             | Floats _ => "f"
             | Other k _ => kind_of k
             end |}.

Definition size (a : ndarray) : nat :=
  match buffer a with
  | Bools bs => List.length bs
  | Ints zs => List.length zs
  | UInts zs => List.length zs
  | Floats fs => List.length fs
  | Other _ count => count
  end.

Definition int64_min : Z := - 2 ^ 63.
Definition int64_max : Z := 2 ^ 63 - 1.
Definition uint64_max : Z := 2 ^ 64 - 1.

Definition in_int64 (z : Z) : bool := (int64_min <=? z) && (z <=? int64_max).
Definition in_uint64 (z : Z) : bool := (0 <=? z) && (z <=? uint64_max).

(** binary64: 53 bits of precision, exponent of the infinities 1024;
    binary32: 24 and 128. *)
Definition valid_binary64 (f : spec_float) : bool := valid_binary 53 1024 f.
Definition valid_binary32 (f : spec_float) : bool := valid_binary 24 128 f.

(** What every array NumPy builds satisfies: as many elements as the shape
    says, each within the range of the element type. *)
Definition wf_ndarray (a : ndarray) : bool :=
  (size a =? fold_right Nat.mul 1%nat (shape a))%nat &&
  match buffer a with
  | Bools _ => true
  | Ints zs => forallb in_int64 zs
  | UInts zs => forallb in_uint64 zs
  | Floats fs => forallb valid_binary64 fs
  | Other _ _ => true
  end.

(** ** Torch tensors *)

Inductive tensor : Type :=
| Long (shape : list nat) (data : list Z)
| Float (shape : list nat) (data : list spec_float).

Definition tensor_shape (x : tensor) : list nat :=
  match x with
  | Long s _ => s
  | Float s _ => s
  end.

Definition numel (x : tensor) : nat :=
  match x with
  | Long _ d => List.length d
  | Float _ d => List.length d
  end.

Definition is_long (x : tensor) : bool :=
  match x with Long _ _ => true | Float _ _ => false end.

Definition is_float (x : tensor) : bool :=
  match x with Long _ _ => false | Float _ _ => true end.

(** Two's complement wrap-around into 64 bits. *)
Definition wrap_int64 (z : Z) : Z := (z + 2 ^ 63) mod 2 ^ 64 - 2 ^ 63.

(** The integer part of a floating-point number, rounding toward zero;
    [None] for an infinity or a NaN. *)
Definition truncate (f : spec_float) : option Z :=
  match f with
  | S754_zero _ => Some 0
  | S754_finite s m e =>
      Some (cond_Zopp s (if e <? 0 then Z.shiftr (Zpos m) (- e)
                         else Z.shiftl (Zpos m) e))
  | S754_infinity _ => None
  | S754_nan => None
  end.

(** Cast of a floating-point element to int64, as the examples are run.
    Beyond the range of int64 (and for an infinity or a NaN) the C++ cast is
    undefined, and [long_data] below leaves its result open; x86-64 delivers
    [int64_min] there. *)
Definition int64_of_float (f : spec_float) : Z :=
  match truncate f with
  | Some z => if in_int64 z then z else int64_min
  | None => int64_min
  end.

Definition int64_of_bool (b : bool) : Z := if b then 1 else 0.

(** Casts to binary32 round to nearest, ties to even. *)
Definition float32_of_Z (z : Z) : spec_float := binary_normalize 24 128 z 0 false.

Definition float32_of_bool (b : bool) : spec_float :=
  float32_of_Z (int64_of_bool b).

Definition float32_of_float (f : spec_float) : spec_float :=
  match f with
  | S754_finite s m e => binary_round 24 128 s m e
  | _ => f
  end.

(** The snapshot: the keyword arguments [Batch] is called with. *)
Record Batch : Type := {
  x : option tensor;
  edge_index : option tensor;
  edge_attr : option tensor;
  y : option tensor;
  batch : option tensor;
  additional_features : dict (option tensor)
}.

(** ** The libraries

    A call into a library returns or fails.  The constructors
    [torch.LongTensor] and [torch.FloatTensor] take an array; the constructor
    of [Batch] takes its keyword arguments and, when it does not fail, gives
    the snapshot that holds them.  A call is a function of its argument:
    asked twice about one array, a constructor answers the same.  (Of [torch]
    this is so but for the content of the tensor that a positive integer
    array of no dimension, read as a size, is answered with: that memory is
    not initialised.) *)

Inductive returned (A : Type) : Type :=
| Returns (a : A)
| Fails (e : library_error).

Arguments Returns {A} a.
Arguments Fails {A} e.

Definition call {A : Type} (r : returned A) : result A :=
  match r with
  | Returns a => Ok a
  | Fails e => Raise (LibraryError e)
  end.

Record library : Type := {
  LongTensor_of : ndarray -> returned tensor;
  FloatTensor_of : ndarray -> returned tensor;
  Batch_fails : Batch -> option library_error
}.

Module torch.

Definition LongTensor (lib : library) (a : ndarray) : result tensor :=
  call (LongTensor_of lib a).

Definition FloatTensor (lib : library) (a : ndarray) : result tensor :=
  call (FloatTensor_of lib a).

End torch.

(** The elements of the integer tensor made from an array: a boolean as 0
    or 1; an integer wrapped into 64 bits; a floating-point number cut to its
    integer part when that fits in 64 bits (what comes out otherwise differs
    between machines and is left open). *)
Definition long_data (e : elements) (data : list Z) : Prop :=
  match e with
  | Bools bs => data = map int64_of_bool bs
  | Ints zs => data = map wrap_int64 zs
  | UInts zs => data = map wrap_int64 zs
  | Floats fs =>
      Forall2 (fun f z => forall i, truncate f = Some i ->
                                    in_int64 i = true -> z = i) fs data
  | Other _ count => List.length data = count
  end.

(** The elements of the floating-point tensor made from an array: each
    element rounded to the nearest binary32 number, ties to even. *)
Definition float_data (e : elements) (data : list spec_float) : Prop :=
  match e with
  | Bools bs => data = map float32_of_bool bs
  | Ints zs => data = map float32_of_Z zs
  | UInts zs => data = map float32_of_Z zs
  | Floats fs => data = map float32_of_float fs
  | Other _ count => List.length data = count
  end.

(** What is assumed of [torch] where a theorem says so: [LongTensor] gives
    tensors of 64-bit integers and [FloatTensor] tensors of binary32
    numbers; from an array of at least one dimension, when they return, they
    give a tensor of the same shape that holds the cast elements.  (An array
    of no dimension is another matter: one of integer kind is read as a
    size.) *)
Record conforms (lib : library) : Prop := {
  LongTensor_long :
    forall a v, LongTensor_of lib a = Returns v -> is_long v = true;
  FloatTensor_float :
    forall a v, FloatTensor_of lib a = Returns v -> is_float v = true;
  LongTensor_array :
    forall a v, LongTensor_of lib a = Returns v -> shape a <> [] ->
      exists data, v = Long (shape a) data /\ long_data (buffer a) data;
  FloatTensor_array :
    forall a v, FloatTensor_of lib a = Returns v -> shape a <> [] ->
      exists data, v = Float (shape a) data /\ float_data (buffer a) data
}.

(** ** The class *)

Definition Edge_Indices : Type := list (option ndarray).
Definition Edge_Weights : Type := list (option ndarray).
Definition Node_Features : Type := list (option ndarray).
Definition Targets : Type := list (option ndarray).
Definition Batches : Type := list (option ndarray).
Definition Additional_Features : Type := list ndarray.

(** Names looked up on [self] by the class itself, and names [setattr]
    refuses to bind to a list. *)
Definition class_attributes : list string :=
  [ "edge_indices"; "edge_weights"; "features"; "targets"; "batches";
    "additional_feature_keys"; "snapshot_count"; "t";
    "_check_temporal_consistency"; "_set_snapshot_count";
    "_get_edge_index"; "_get_batch_index"; "_get_edge_weight";
    "_get_feature"; "_get_target"; "_get_additional_feature";
    "_get_additional_features"; "__get_item__";
    "__class__"; "__dict__"; "__weakref__" ].

(** Keywords that [__get_item__] passes to [Batch] explicitly. *)
Definition batch_keywords : list string :=
  [ "x"; "edge_index"; "edge_attr"; "y"; "batch" ].

Definition mem (s : string) (l : list string) : bool :=
  existsb (String.eqb s) l.

Definition is_additional_name (s : string) : bool :=
  negb (mem s class_attributes).

Fixpoint distinct (l : list string) : bool :=
  match l with
  | [] => true
  | s :: l' => negb (mem s l') && distinct l'
  end.

(** [**kwargs]: a dictionary from names to lists of arrays.  Its keys are
    distinct, as those of every dictionary.  A name of [class_attributes]
    would replace an attribute or a method of the object (or cannot be a
    keyword at all, being a parameter); such calls are outside this
    development.  A name of [batch_keywords] is admitted: it reaches [Batch]
    twice, see [Batch_new]. *)
Record keywords : Type := {
  items : dict Additional_Features;
  items_distinct : distinct (dict_keys items) = true;
  items_named : forallb is_additional_name (dict_keys items) = true
}.

(** The object.  [attributes] holds what [setattr(self, key, value)] stored;
    [snapshot_count] and [t] are [None] while the attribute is not assigned
    yet. *)
Record DynamicGraphTemporalSignalBatch : Type := {
  edge_indices : Edge_Indices;
  edge_weights : Edge_Weights;
  features : Node_Features;
  targets : Targets;
  batches : Batches;
  additional_feature_keys : list string;
  attributes : dict Additional_Features;
  snapshot_count : option Z;
  t : option Z
}.

Definition setattr (self : DynamicGraphTemporalSignalBatch) (key : string)
    (value : Additional_Features) : DynamicGraphTemporalSignalBatch :=
  {| edge_indices := edge_indices self;
     edge_weights := edge_weights self;
     features := features self;
     targets := targets self;
     batches := batches self;
     additional_feature_keys := additional_feature_keys self;
     attributes := dict_set (attributes self) key value;
     snapshot_count := snapshot_count self;
     t := t self |}.

Definition getattr (self : DynamicGraphTemporalSignalBatch) (key : string)
  : result Additional_Features :=
  match dict_get (attributes self) key with
  | Some value => Ok value
  | None => Raise (AttributeError key)
  end.

(** [self.additional_feature_keys.append(key)] *)
Definition append_key (self : DynamicGraphTemporalSignalBatch) (key : string)
  : DynamicGraphTemporalSignalBatch :=
  {| edge_indices := edge_indices self;
     edge_weights := edge_weights self;
     features := features self;
     targets := targets self;
     batches := batches self;
     additional_feature_keys := additional_feature_keys self ++ [key];
     attributes := attributes self;
     snapshot_count := snapshot_count self;
     t := t self |}.

Definition set_snapshot_count (self : DynamicGraphTemporalSignalBatch)
    (n : Z) : DynamicGraphTemporalSignalBatch :=
  {| edge_indices := edge_indices self;
     edge_weights := edge_weights self;
     features := features self;
     targets := targets self;
     batches := batches self;
     additional_feature_keys := additional_feature_keys self;
     attributes := attributes self;
     snapshot_count := Some n;
     t := t self |}.

Definition set_t (self : DynamicGraphTemporalSignalBatch) (n : Z)
  : DynamicGraphTemporalSignalBatch :=
  {| edge_indices := edge_indices self;
     edge_weights := edge_weights self;
     features := features self;
     targets := targets self;
     batches := batches self;
     additional_feature_keys := additional_feature_keys self;
     attributes := attributes self;
     snapshot_count := snapshot_count self;
     t := Some n |}.

Definition inconsistency : string := "Temporal dimension inconsistency.".

Definition _check_temporal_consistency
    (self : DynamicGraphTemporalSignalBatch) : result unit :=
  _ <- assert (len (features self) =? len (targets self)) inconsistency ;;
  _ <- assert (len (edge_indices self) =? len (edge_weights self)) inconsistency ;;
  _ <- assert (len (features self) =? len (edge_weights self)) inconsistency ;;
  _ <- assert (len (features self) =? len (batches self)) inconsistency ;;
  for_each (additional_feature_keys self) (fun key =>
    value <- getattr self key ;;
    assert (len (targets self) =? len value) inconsistency).

Definition _set_snapshot_count (self : DynamicGraphTemporalSignalBatch)
  : DynamicGraphTemporalSignalBatch :=
  set_snapshot_count self (len (features self)).

(** The loop [for key, value in kwargs.items()] of [__init__]. *)
Definition set_additional_features (self : DynamicGraphTemporalSignalBatch)
    (kwargs : dict Additional_Features) : DynamicGraphTemporalSignalBatch :=
  fold_left (fun self item => append_key (setattr self (fst item) (snd item)) (fst item))
            kwargs self.

Definition __init__ (edge_indices : Edge_Indices) (edge_weights : Edge_Weights)
    (features : Node_Features) (targets : Targets) (batches : Batches)
    (kwargs : keywords) : result DynamicGraphTemporalSignalBatch :=
  let self := {| edge_indices := edge_indices;
                 edge_weights := edge_weights;
                 features := features;
                 targets := targets;
                 batches := batches;
                 additional_feature_keys := [];
                 attributes := [];
                 snapshot_count := None;
                 t := None |} in
  let self := set_additional_features self (items kwargs) in
  _ <- _check_temporal_consistency self ;;
  Ok (_set_snapshot_count self).

Definition _get_edge_index (lib : library)
    (self : DynamicGraphTemporalSignalBatch) (time_index : Z)
  : result (option tensor) :=
  element <- getitem (edge_indices self) time_index ;;
  match element with
  | None => Ok None
  | Some a => v <- torch.LongTensor lib a ;; Ok (Some v)
  end.

Definition _get_batch_index (lib : library)
    (self : DynamicGraphTemporalSignalBatch) (time_index : Z)
  : result (option tensor) :=
  element <- getitem (batches self) time_index ;;
  match element with
  | None => Ok None
  | Some a => v <- torch.LongTensor lib a ;; Ok (Some v)
  end.

Definition _get_edge_weight (lib : library)
    (self : DynamicGraphTemporalSignalBatch) (time_index : Z)
  : result (option tensor) :=
  element <- getitem (edge_weights self) time_index ;;
  match element with
  | None => Ok None
  | Some a => v <- torch.FloatTensor lib a ;; Ok (Some v)
  end.

Definition _get_feature (lib : library)
    (self : DynamicGraphTemporalSignalBatch) (time_index : Z)
  : result (option tensor) :=
  element <- getitem (features self) time_index ;;
  match element with
  | None => Ok None
  | Some a => v <- torch.FloatTensor lib a ;; Ok (Some v)
  end.

(** A function that reaches its end without [return] returns [None]: the
    last [else] of the two conversions below. *)
Definition _get_target (lib : library)
    (self : DynamicGraphTemporalSignalBatch) (time_index : Z)
  : result (option tensor) :=
  element <- getitem (targets self) time_index ;;
  match element with
  | None => Ok None
  | Some a =>
      if String.eqb (kind (dtype a)) "i" then
        v <- torch.LongTensor lib a ;; Ok (Some v)
      else if String.eqb (kind (dtype a)) "f" then
        v <- torch.FloatTensor lib a ;; Ok (Some v)
      else Ok None
  end.

Definition _get_additional_feature (lib : library)
    (self : DynamicGraphTemporalSignalBatch) (time_index : Z)
    (feature_key : string) : result (option tensor) :=
  value <- getattr self feature_key ;;
  feature <- getitem value time_index ;;
  if String.eqb (kind (dtype feature)) "i" then
    v <- torch.LongTensor lib feature ;; Ok (Some v)
  else if String.eqb (kind (dtype feature)) "f" then
    v <- torch.FloatTensor lib feature ;; Ok (Some v)
  else Ok None.

(** [{key: value(key) for key in keys}], continuing the dictionary [d]. *)
Fixpoint dict_comprehension {V : Type} (keys : list string)
    (value : string -> result V) (d : dict V) : result (dict V) :=
  match keys with
  | [] => Ok d
  | key :: keys' =>
      v <- value key ;; dict_comprehension keys' value (dict_set d key v)
  end.

Definition _get_additional_features (lib : library)
    (self : DynamicGraphTemporalSignalBatch) (time_index : Z)
  : result (dict (option tensor)) :=
  dict_comprehension (additional_feature_keys self)
    (fun key => _get_additional_feature lib self time_index key) [].

(** [Batch(x=..., edge_index=..., edge_attr=..., y=..., batch=...,
    **additional_features)].  A name of [additional_features] that is one of
    the five keywords written out makes the call itself raise [TypeError]
    (a keyword given twice); otherwise the constructor of the library runs. *)
Definition Batch_new (lib : library)
    (x edge_index edge_attr y batch : option tensor)
    (additional_features : dict (option tensor)) : result Batch :=
  if existsb (fun key => mem key batch_keywords) (dict_keys additional_features)
  then Raise (LibraryError TypeError)
  else
    let keywords := {| x := x; edge_index := edge_index;
                       edge_attr := edge_attr; y := y; batch := batch;
                       additional_features := additional_features |} in
    match Batch_fails lib keywords with
    | Some e => Raise (LibraryError e)
    | None => Ok keywords
    end.

Definition __get_item__ (lib : library)
    (self : DynamicGraphTemporalSignalBatch) (time_index : Z) : result Batch :=
  x <- _get_feature lib self time_index ;;
  edge_index <- _get_edge_index lib self time_index ;;
  edge_weight <- _get_edge_weight lib self time_index ;;
  batch <- _get_batch_index lib self time_index ;;
  y <- _get_target lib self time_index ;;
  additional_features <- _get_additional_features lib self time_index ;;
  snapshot <- Batch_new lib x edge_index edge_weight y batch
                additional_features ;;
  Ok snapshot.

(** [__next__] returns the snapshot or raises, and leaves the object with
    its cursor moved; when [__get_item__] raises, the cursor stays. *)
Definition __next__ (lib : library) (self : DynamicGraphTemporalSignalBatch)
  : result Batch * DynamicGraphTemporalSignalBatch :=
  match t self with
  | None => (Raise (AttributeError "t"), self)
  | Some cursor =>
      if cursor <? len (features self) then
        match __get_item__ lib self cursor with
        | Ok snapshot => (Ok snapshot, set_t self (cursor + 1))
        | Raise e => (Raise e, self)
        end
      else (Raise StopIteration, set_t self 0)
  end.

Definition __iter__ (self : DynamicGraphTemporalSignalBatch)
  : DynamicGraphTemporalSignalBatch :=
  set_t self 0.

(** The loop a [for snapshot in iterator] statement runs: call [__next__]
    until it raises [StopIteration], collecting what it returned; any other
    exception ends the loop and is passed on.  [None] when [fuel] calls were
    not enough. *)
Fixpoint exhaust (lib : library) (fuel : nat)
    (self : DynamicGraphTemporalSignalBatch)
  : option (result (list Batch) * DynamicGraphTemporalSignalBatch) :=
  match fuel with
  | O => None
  | S fuel' =>
      match __next__ lib self with
      | (Ok snapshot, self') =>
          match exhaust lib fuel' self' with
          | Some (Ok snapshots, self'') => Some (Ok (snapshot :: snapshots), self'')
          | other => other
          end
      | (Raise StopIteration, self') => Some (Ok [], self')
      | (Raise e, self') => Some (Raise e, self')
      end
  end.

(** [for snapshot in self]: [iter(self)], then the loop. *)
Definition iterate (lib : library) (fuel : nat)
    (self : DynamicGraphTemporalSignalBatch)
  : option (result (list Batch) * DynamicGraphTemporalSignalBatch) :=
  exhaust lib fuel (__iter__ self).

(** ** Numeric comparison of an array with a tensor

    The number an element stands for is [m * 2^e], an infinity, or none (a
    NaN); [True] counts as 1 and [False] as 0, as in NumPy. *)

Inductive number : Type :=
| Dyadic (m e : Z)
| Infinite (negative : bool)
| NotANumber.

Definition number_of_Z (z : Z) : number := Dyadic z 0.

Definition number_of_bool (b : bool) : number := Dyadic (int64_of_bool b) 0.

Definition number_of_float (f : spec_float) : number :=
  match f with
  | S754_zero _ => Dyadic 0 0
  | S754_finite s m e => Dyadic (cond_Zopp s (Zpos m)) e
  | S754_infinity s => Infinite s
  | S754_nan => NotANumber
  end.

(** [a == b] on numbers; a NaN equals nothing. *)
Definition number_eqb (a b : number) : bool :=
  match a, b with
  | Dyadic m1 e1, Dyadic m2 e2 =>
      let e := Z.min e1 e2 in
      m1 * 2 ^ (e1 - e) =? m2 * 2 ^ (e2 - e)
  | Infinite s1, Infinite s2 => Bool.eqb s1 s2
  | _, _ => false
  end.

Definition array_values (a : ndarray) : list number :=
  match buffer a with
  | Bools bs => map number_of_bool bs
  | Ints zs => map number_of_Z zs
  | UInts zs => map number_of_Z zs
  | Floats fs => map number_of_float fs
  | Other _ count => repeat NotANumber count
  end.

Definition tensor_values (x : tensor) : list number :=
  match x with
  | Long _ d => map number_of_Z d
  | Float _ d => map number_of_float d
  end.

Fixpoint all_equal (l1 l2 : list number) : bool :=
  match l1, l2 with
  | [], [] => true
  | a :: l1', b :: l2' => number_eqb a b && all_equal l1' l2'
  | _, _ => false
  end.

(** Same element values, position by position. *)
Definition same_values (a : ndarray) (x : tensor) : bool :=
  all_equal (array_values a) (tensor_values x).

(** A number is representable when some int64, respectively some binary32
    number, equals it. *)
Definition representable_int64 (n : number) : Prop :=
  exists z, in_int64 z = true /\ number_eqb n (number_of_Z z) = true.

Definition representable_float32 (n : number) : Prop :=
  exists g, valid_binary32 g = true /\ number_eqb n (number_of_float g) = true.

(** Representable in the element type of the tensor [v]. *)
Definition representable (v : tensor) (n : number) : Prop :=
  match v with
  | Long _ _ => representable_int64 n
  | Float _ _ => representable_float32 n
  end.

(** The elements of the tensor [v] are those of the array [a], cast. *)
Definition tensor_data (a : ndarray) (v : tensor) : Prop :=
  match v with
  | Long _ data => long_data (buffer a) data
  | Float _ data => float_data (buffer a) data
  end.

(** What a conversion keeps of the array [a] in the tensor [v]: the shape
    and the number of elements; the elements, cast; position by position,
    the value of an element that is representable in the element type of the
    tensor; hence all the values when all are representable, as they are
    when an array of signed integers becomes an integer tensor. *)
Definition conversion_keeps (a : ndarray) (v : tensor) : Prop :=
  tensor_shape v = shape a /\
  numel v = size a /\
  tensor_data a v /\
  Forall2 (fun n n' => representable v n -> number_eqb n n' = true)
    (array_values a) (tensor_values v) /\
  (Forall (representable v) (array_values a) -> same_values a v = true) /\
  (is_long v = true -> kind (dtype a) = "i" -> wf_ndarray a = true ->
   same_values a v = true).

(** ** The conversion the targets and the additional features share *)

Definition convert_by_kind (lib : library) (a : ndarray)
  : result (option tensor) :=
  if String.eqb (kind (dtype a)) "i" then
    v <- torch.LongTensor lib a ;; Ok (Some v)
  else if String.eqb (kind (dtype a)) "f" then
    v <- torch.FloatTensor lib a ;; Ok (Some v)
  else Ok None.

(** The conversion of a target entry: [None] stays [None]. *)
Definition convert_target (lib : library) (element : option ndarray)
  : result (option tensor) :=
  match element with
  | None => Ok None
  | Some a => convert_by_kind lib a
  end.

(** The conversion of an entry of the four other core lists. *)
Definition convert_entry (constructor : ndarray -> result tensor)
    (element : option ndarray) : result (option tensor) :=
  match element with
  | None => Ok None
  | Some a => v <- constructor a ;; Ok (Some v)
  end.

(** A value, or an exception that a library call raised: not an exception
    of the class's own code. *)
Definition library_outcome {A : Type} (r : result A) : Prop :=
  match r with
  | Ok _ => True
  | Raise (LibraryError _) => True
  | Raise _ => False
  end.

(** ** Consistency of lengths *)

(** Every additional list has length [n]. *)
Definition lengths_agree (n : Z) (d : dict Additional_Features) : bool :=
  forallb (fun item => n =? len (snd item)) d.

(** The five lists and the additional ones have one length. *)
Definition consistent_lengths (edge_indices : Edge_Indices)
    (edge_weights : Edge_Weights) (features : Node_Features)
    (targets : Targets) (batches : Batches)
    (kwargs : dict Additional_Features) : bool :=
  (len features =? len targets) && (len edge_indices =? len edge_weights) &&
  (len features =? len edge_weights) && (len features =? len batches) &&
  lengths_agree (len targets) kwargs.

(** What construction establishes and iteration keeps. *)
Record valid (self : DynamicGraphTemporalSignalBatch) : Prop := {
  valid_edge_indices : len (edge_indices self) = len (features self);
  valid_edge_weights : len (edge_weights self) = len (features self);
  valid_targets : len (targets self) = len (features self);
  valid_batches : len (batches self) = len (features self);
  valid_additional :
    forall key, In key (additional_feature_keys self) ->
      exists value, getattr self key = Ok value /\ len value = len (features self);
  valid_snapshot_count : snapshot_count self = Some (len (features self))
}.

Arguments valid_edge_indices {self}.
Arguments valid_edge_weights {self}.
Arguments valid_targets {self}.
Arguments valid_batches {self}.
Arguments valid_additional {self}.
Arguments valid_snapshot_count {self}.

(** ** A library to run the examples with

    It conforms, and answers the arrays of the examples as [torch] does: an
    array of at least one dimension is cast element by element; an integer
    array of no dimension is read as a size, so a negative one fails with
    [RuntimeError] and another gives a tensor of that length (its elements
    are whatever the memory held, zeros here).  The names [cls] and
    [_base_cls] are parameters of [Batch] itself. *)

Definition size_argument (a : ndarray) : option Z :=
  match shape a, buffer a with
  | [], Ints [n] => Some n
  | [], UInts [n] => Some n
  | _, _ => None
  end.

Definition reference_long_data (e : elements) : list Z :=
  match e with
  | Bools bs => map int64_of_bool bs
  | Ints zs => map wrap_int64 zs
  | UInts zs => map wrap_int64 zs
  | Floats fs => map int64_of_float fs
  | Other _ count => repeat 0 count
  end.

Definition reference_float_data (e : elements) : list spec_float :=
  match e with
  | Bools bs => map float32_of_bool bs
  | Ints zs => map float32_of_Z zs
  | UInts zs => map float32_of_Z zs
  | Floats fs => map float32_of_float fs
  | Other _ count => repeat (S754_zero false) count
  end.

Definition is_other (e : elements) : bool :=
  match e with
  | Other _ _ => true
  | _ => false
  end.

Definition reference_LongTensor (a : ndarray) : returned tensor :=
  if is_other (buffer a) then Fails TypeError
  else
    match size_argument a with
    | Some n =>
        if n <? 0 then Fails RuntimeError
        else Returns (Long [Z.to_nat n] (repeat 0 (Z.to_nat n)))
    | None => Returns (Long (shape a) (reference_long_data (buffer a)))
    end.

Definition reference_FloatTensor (a : ndarray) : returned tensor :=
  if is_other (buffer a) then Fails TypeError
  else
    match size_argument a with
    | Some n =>
        if n <? 0 then Fails RuntimeError
        else Returns (Float [Z.to_nat n] (repeat (S754_zero false) (Z.to_nat n)))
    | None => Returns (Float (shape a) (reference_float_data (buffer a)))
    end.

Definition reference_Batch_fails (keywords : Batch) : option library_error :=
  if existsb (fun key => mem key ["cls"; "_base_cls"])
       (dict_keys (additional_features keywords))
  then Some TypeError
  else None.

Definition reference : library :=
  {| LongTensor_of := reference_LongTensor;
     FloatTensor_of := reference_FloatTensor;
     Batch_fails := reference_Batch_fails |}.

(** ** Sample data *)

Definition binary64 (m e : Z) : spec_float := binary_normalize 53 1024 m e false.

Definition int_array (shape : list nat) (zs : list Z) : ndarray :=
  {| shape := shape; buffer := Ints zs |}.

Definition float_array (shape : list nat) (fs : list spec_float) : ndarray :=
  {| shape := shape; buffer := Floats fs |}.



Definition no_kwargs : keywords :=
  {| items := []; items_distinct := eq_refl; items_named := eq_refl |}.

Definition weight_extra : keywords :=
  {| items := [("weight_extra", [int_array [1%nat] [9]; int_array [1%nat] [10]])];
     items_distinct := eq_refl; items_named := eq_refl |}.

(** The two time steps of the documentation's example: no edges at the
    first step, one edge at the second, an additional integer feature. *)
Definition sample_edge_indices : Edge_Indices :=
  [None; Some (int_array [1; 2]%nat [0; 1])].

Definition sample_edge_weights : Edge_Weights :=
  [None; Some (float_array [1%nat] [binary64 1 (-1)])].

Definition sample_features : Node_Features :=
  [Some (float_array [1; 1]%nat [binary64 1 0]);
   Some (float_array [1; 1]%nat [binary64 2 0])].

Definition sample_targets : Targets :=
  [Some (int_array [1%nat] [0]); Some (int_array [1%nat] [1])].

Definition sample_batches : Batches :=
  [Some (int_array [1%nat] [0]); Some (int_array [1%nat] [0])].

Definition sample : DynamicGraphTemporalSignalBatch :=
  {| edge_indices := sample_edge_indices;
     edge_weights := sample_edge_weights;
     features := sample_features;
     targets := sample_targets;
     batches := sample_batches;
     additional_feature_keys := ["weight_extra"];
     attributes := items weight_extra;
     snapshot_count := Some 2;
     t := None |}.

Definition sample_snapshot_0 : Batch :=
  {| x := Some (Float [1; 1]%nat [S754_finite false 8388608 (-23)]);
     edge_index := None;
     edge_attr := None;
     y := Some (Long [1%nat] [0]);
     batch := Some (Long [1%nat] [0]);
     additional_features := [("weight_extra", Some (Long [1%nat] [9]))] |}.

Definition sample_snapshot_1 : Batch :=
  {| x := Some (Float [1; 1]%nat [S754_finite false 8388608 (-22)]);
     edge_index := Some (Long [1; 2]%nat [0; 1]);
     edge_attr := Some (Float [1%nat] [S754_finite false 8388608 (-24)]);
     y := Some (Long [1%nat] [1]);
     batch := Some (Long [1%nat] [0]);
     additional_features := [("weight_extra", Some (Long [1%nat] [10]))] |}.




(** 0.1 as a binary64 number, and a one-step list of features holding it. *)
Definition tenth : spec_float := S754_finite false 7205759403792794 (-56).

Definition tenth_features : Node_Features := [Some (float_array [1%nat] [tenth])].

(** 2^24 + 1 as an integer feature, and one half as an edge index. *)
Definition odd_features : Node_Features := [Some (int_array [1%nat] [16777217])].

Definition half_edge_indices : Edge_Indices :=
  [Some (float_array [2; 1]%nat [binary64 1 (-1); binary64 3 (-1)])].

(** The sample again, its additional feature now under the name [x]. *)
Definition named_x : keywords :=
  {| items := [("x", [int_array [1%nat] [9]; int_array [1%nat] [10]])];
     items_distinct := eq_refl; items_named := eq_refl |}.

Definition sample_x : DynamicGraphTemporalSignalBatch :=
  {| edge_indices := sample_edge_indices;
     edge_weights := sample_edge_weights;
     features := sample_features;
     targets := sample_targets;
     batches := sample_batches;
     additional_feature_keys := ["x"];
     attributes := items named_x;
     snapshot_count := Some 2;
     t := None |}.

(** The integer 0 as an array of no dimension, alone in a list of targets
    and alone in a list of edge indices. *)
Definition zero : ndarray := int_array [] [0].

Definition zero_targets : Targets := [Some zero].

Definition zero_edge_indices : Edge_Indices := [Some zero].

(** ** Callers of the iterator

    What a program does with the object between construction and the end of
    its life: any sequence of [iter(self)] and [next(self)] calls. *)

Inductive reachable (lib : library) (self0 : DynamicGraphTemporalSignalBatch)
  : DynamicGraphTemporalSignalBatch -> Prop :=
| reachable_start : reachable lib self0 self0
| reachable_iter (self : DynamicGraphTemporalSignalBatch) :
    reachable lib self0 self -> reachable lib self0 (__iter__ self)
| reachable_next (self : DynamicGraphTemporalSignalBatch) :
    reachable lib self0 self -> reachable lib self0 (snd (__next__ lib self)).



(** The sample after [iter] and two calls of [next]. *)
Definition sample_exhausted : DynamicGraphTemporalSignalBatch :=
  snd (__next__ reference (snd (__next__ reference (__iter__ sample)))).

(** * Properties *)

(** ** Results *)

Lemma bind_Ok {A B : Type} (r : result A) (k : A -> result B) (b : B) :
  (x <- r ;; k x) = Ok b -> exists a, r = Ok a /\ k a = Ok b.
Proof.
  destruct r as [a | e]; simpl; intros H.
  - exists a. split; [reflexivity | exact H].
  - discriminate H.
Qed.

Ltac bind_inv H :=
  let a := fresh "v" in
  let Ha := fresh "Hv" in
  apply bind_Ok in H; destruct H as [a [Ha H]].

(** ** List indexing *)

Section Getitem.

Context {A : Type}.
Implicit Types (l : list A) (i : Z).

Lemma len_nonneg l : 0 <= len l.
Proof. unfold len. lia. Qed.

Lemma getitem_nth l i :
  0 <= i < len l ->
  exists a, getitem l i = Ok a /\ nth_error l (Z.to_nat i) = Some a.
Proof.
  intros Hi. unfold getitem.
  replace (i <? 0) with false by (symmetry; apply Z.ltb_ge; lia).
  replace ((i <? 0) || (len l <=? i)) with false.
  2:{ symmetry. apply orb_false_iff. split; [apply Z.ltb_ge | apply Z.leb_gt]; lia. }
  destruct (nth_error l (Z.to_nat i)) as [a |] eqn:E.
  - exists a. split; reflexivity.
  - apply nth_error_None in E. unfold len in Hi. lia.
Qed.

Lemma getitem_wraps l i :
  - len l <= i < 0 -> getitem l i = getitem l (len l + i).
Proof.
  intros Hi. unfold getitem.
  replace (i <? 0) with true by (symmetry; apply Z.ltb_lt; lia).
  replace (len l + i <? 0) with false by (symmetry; apply Z.ltb_ge; lia).
  rewrite (Z.add_comm i (len l)). reflexivity.
Qed.

Lemma getitem_above l i : len l <= i -> getitem l i = Raise IndexError.
Proof.
  intros Hi. unfold getitem. pose proof (len_nonneg l).
  replace (i <? 0) with false by (symmetry; apply Z.ltb_ge; lia).
  replace (len l <=? i) with true by (symmetry; apply Z.leb_le; lia).
  rewrite orb_true_r. reflexivity.
Qed.

Lemma getitem_below l i : i < - len l -> getitem l i = Raise IndexError.
Proof.
  intros Hi. unfold getitem. pose proof (len_nonneg l).
  replace (i <? 0) with true by (symmetry; apply Z.ltb_lt; lia).
  replace (i + len l <? 0) with true by (symmetry; apply Z.ltb_lt; lia).
  reflexivity.
Qed.

End Getitem.

(** ** Dictionaries *)

Lemma mem_In (s : string) (l : list string) : mem s l = true <-> In s l.
Proof.
  unfold mem. rewrite existsb_exists. split.
  - intros [s' [Hin Heq]]. apply String.eqb_eq in Heq. subst. exact Hin.
  - intros Hin. exists s. split; [exact Hin | apply String.eqb_refl].
Qed.

Lemma mem_not_In (s : string) (l : list string) : mem s l = false <-> ~ In s l.
Proof.
  rewrite <- mem_In. destruct (mem s l); split; intros H; congruence.
Qed.

Lemma distinct_NoDup (l : list string) : distinct l = true <-> NoDup l.
Proof.
  induction l as [| s l IH]; simpl.
  - split; [constructor | reflexivity].
  - rewrite andb_true_iff, negb_true_iff, mem_not_In, IH. split.
    + intros [Hs Hl]. constructor; assumption.
    + intros H. inversion H; subst. split; assumption.
Qed.

Section Dict.

Context {V : Type}.
Implicit Types (d : dict V) (key : string) (value : V).

Lemma dict_get_None d key : dict_get d key = None <-> ~ In key (dict_keys d).
Proof.
  induction d as [| [k v] d IH]; simpl.
  - split; [intros _ H; exact H | reflexivity].
  - destruct (String.eqb_spec key k) as [-> | Hne].
    + split; [discriminate | intros H; exfalso; apply H; left; reflexivity].
    + rewrite IH. split.
      * intros H [Heq | Hin]; [congruence | exact (H Hin)].
      * intros H Hin. apply H. right. exact Hin.
Qed.

Lemma dict_get_In d key value :
  NoDup (dict_keys d) -> In (key, value) d -> dict_get d key = Some value.
Proof.
  induction d as [| [k v] d IH]; simpl; intros Hnd Hin; [contradiction |].
  inversion Hnd as [| ? ? Hk Hd]; subst.
  destruct Hin as [Heq | Hin].
  - inversion Heq; subst. rewrite String.eqb_refl. reflexivity.
  - destruct (String.eqb_spec key k) as [-> | Hne].
    + exfalso. apply Hk. change k with (fst (k, value)).
      apply in_map. exact Hin.
    + apply IH; assumption.
Qed.

Lemma dict_get_Some_In d key value :
  dict_get d key = Some value -> In (key, value) d.
Proof.
  induction d as [| [k v] d IH]; simpl; [discriminate |].
  destruct (String.eqb_spec key k) as [-> | Hne].
  - intros H. inversion H; subst. left. reflexivity.
  - intros H. right. apply IH. exact H.
Qed.

Lemma dict_set_new d key value :
  ~ In key (dict_keys d) -> dict_set d key value = d ++ [(key, value)].
Proof.
  induction d as [| [k v] d IH]; simpl; intros Hk; [reflexivity |].
  destruct (String.eqb_spec key k) as [-> | Hne].
  - exfalso. apply Hk. left. reflexivity.
  - rewrite IH; [reflexivity |]. intros Hin. apply Hk. right. exact Hin.
Qed.

Lemma dict_get_set_same d key value :
  dict_get (dict_set d key value) key = Some value.
Proof.
  induction d as [| [k v] d IH]; simpl.
  - rewrite String.eqb_refl. reflexivity.
  - destruct (String.eqb_spec key k) as [-> | Hne]; simpl.
    + rewrite String.eqb_refl. reflexivity.
    + destruct (String.eqb_spec key k); [contradiction | exact IH].
Qed.

Lemma dict_get_set_other d key key' value :
  key' <> key -> dict_get (dict_set d key value) key' = dict_get d key'.
Proof.
  intros Hne. induction d as [| [k v] d IH]; simpl.
  - destruct (String.eqb_spec key' key); [contradiction | reflexivity].
  - destruct (String.eqb_spec key k) as [-> | Hk]; simpl.
    + destruct (String.eqb_spec key' k); [contradiction | reflexivity].
    + destruct (String.eqb_spec key' k); [reflexivity | exact IH].
Qed.

Lemma dict_keys_set d key value :
  forall k, In k (dict_keys (dict_set d key value)) <-> k = key \/ In k (dict_keys d).
Proof.
  intros k0. induction d as [| [k v] d IH]; simpl.
  - split; [intros [H | []]; left; congruence | intros [H | []]; left; congruence].
  - destruct (String.eqb_spec key k) as [-> | Hk]; simpl.
    + split; [intros H; right; exact H | intros [-> | H]; [left; reflexivity | exact H]].
    + rewrite IH. split.
      * intros [H | [H | H]]; [right; left; exact H | left; exact H | right; right; exact H].
      * intros [H | [H | H]]; [right; left; exact H | left; exact H | right; right; exact H].
Qed.

End Dict.

(** ** Construction *)

Lemma set_additional_features_eq (self : DynamicGraphTemporalSignalBatch)
    (kwargs : dict Additional_Features) :
  NoDup (dict_keys (attributes self ++ kwargs)) ->
  set_additional_features self kwargs =
  {| edge_indices := edge_indices self;
     edge_weights := edge_weights self;
     features := features self;
     targets := targets self;
     batches := batches self;
     additional_feature_keys := additional_feature_keys self ++ dict_keys kwargs;
     attributes := attributes self ++ kwargs;
     snapshot_count := snapshot_count self;
     t := t self |}.
Proof.
  revert self. induction kwargs as [| [key value] kwargs IH]; intros self Hnd.
  - simpl. rewrite !app_nil_r. destruct self; reflexivity.
  - unfold set_additional_features in *. simpl fold_left.
    assert (Hkey : ~ In key (dict_keys (attributes self))).
    { unfold dict_keys in *. rewrite map_app in Hnd. simpl in Hnd.
      apply NoDup_remove_2 in Hnd. intros Hin. apply Hnd.
      apply in_or_app. left. exact Hin. }
    rewrite IH; simpl.
    + rewrite dict_set_new by exact Hkey; rewrite <- !app_assoc. reflexivity.
    + rewrite dict_set_new by exact Hkey; rewrite <- app_assoc. exact Hnd.
Qed.

Lemma check_additional_lengths (d : dict Additional_Features) (n : Z) :
  forall l : dict Additional_Features,
    (forall key value, In (key, value) l -> dict_get d key = Some value) ->
    for_each (dict_keys l)
      (fun key =>
         value <- match dict_get d key with
                  | Some value => Ok value
                  | None => Raise (AttributeError key)
                  end ;;
         assert (n =? len value) inconsistency)
    = if lengths_agree n l then Ok tt else Raise (AssertionError inconsistency).
Proof.
  induction l as [| [key value] l IH]; intros Hl; simpl; [reflexivity |].
  rewrite (Hl key value) by (left; reflexivity). simpl.
  destruct (n =? len value); simpl; [| reflexivity].
  apply IH. intros k v Hin. apply Hl. right. exact Hin.
Qed.

Lemma init_eq (edge_indices : Edge_Indices) (edge_weights : Edge_Weights)
    (features : Node_Features) (targets : Targets) (batches : Batches)
    (kwargs : keywords) :
  __init__ edge_indices edge_weights features targets batches kwargs =
  if consistent_lengths edge_indices edge_weights features targets batches
       (items kwargs)
  then Ok {| edge_indices := edge_indices;
             edge_weights := edge_weights;
             features := features;
             targets := targets;
             batches := batches;
             additional_feature_keys := dict_keys (items kwargs);
             attributes := items kwargs;
             snapshot_count := Some (len features);
             t := None |}
  else Raise (AssertionError inconsistency).
Proof.
  pose proof (proj1 (distinct_NoDup _) (items_distinct kwargs)) as Hnd.
  unfold __init__. rewrite set_additional_features_eq by exact Hnd.
  unfold _check_temporal_consistency, consistent_lengths, getattr. simpl.
  destruct (len features =? len targets); simpl; [| reflexivity].
  destruct (len edge_indices =? len edge_weights); simpl; [| reflexivity].
  destruct (len features =? len edge_weights); simpl; [| reflexivity].
  destruct (len features =? len batches); simpl; [| reflexivity].
  rewrite check_additional_lengths.
  - destruct (lengths_agree (len targets) (items kwargs)); reflexivity.
  - intros key value Hin. apply dict_get_In; assumption.
Qed.

Lemma lengths_agree_In (n : Z) (d : dict Additional_Features) :
  lengths_agree n d = true <->
  forall key value, In (key, value) d -> len value = n.
Proof.
  unfold lengths_agree. rewrite forallb_forall. split.
  - intros H key value Hin. specialize (H _ Hin). simpl in H.
    apply Z.eqb_eq in H. congruence.
  - intros H [key value] Hin. simpl. apply Z.eqb_eq. symmetry.
    apply (H key). exact Hin.
Qed.

Lemma consistent_lengths_true (edge_indices : Edge_Indices)
    (edge_weights : Edge_Weights) (features : Node_Features)
    (targets : Targets) (batches : Batches)
    (kwargs : dict Additional_Features) :
  consistent_lengths edge_indices edge_weights features targets batches kwargs
  = true <->
  (len edge_indices = len edge_weights /\ len edge_weights = len features /\
   len features = len targets /\ len targets = len batches) /\
  (forall key value, In (key, value) kwargs -> len value = len features).
Proof.
  unfold consistent_lengths.
  rewrite !andb_true_iff, !Z.eqb_eq, lengths_agree_In. split.
  - intros [[[[H1 H2] H3] H4] H5]. split; [lia |].
    intros key value Hin. rewrite (H5 key value Hin). lia.
  - intros [[H1 [H2 [H3 H4]]] H5]. repeat split; try lia.
    intros key value Hin. rewrite (H5 key value Hin). lia.
Qed.

Lemma init_Ok (edge_indices : Edge_Indices) (edge_weights : Edge_Weights)
    (features : Node_Features) (targets : Targets) (batches : Batches)
    (kwargs : keywords) (self : DynamicGraphTemporalSignalBatch) :
  __init__ edge_indices edge_weights features targets batches kwargs = Ok self ->
  consistent_lengths edge_indices edge_weights features targets batches
    (items kwargs) = true /\
  self = {| edge_indices := edge_indices;
            edge_weights := edge_weights;
            features := features;
            targets := targets;
            batches := batches;
            additional_feature_keys := dict_keys (items kwargs);
            attributes := items kwargs;
            snapshot_count := Some (len features);
            t := None |}.
Proof.
  rewrite init_eq.
  destruct (consistent_lengths _ _ _ _ _ _); intros H; [| discriminate].
  inversion H. split; reflexivity.
Qed.

Lemma init_valid (edge_indices : Edge_Indices) (edge_weights : Edge_Weights)
    (features : Node_Features) (targets : Targets) (batches : Batches)
    (kwargs : keywords) (self : DynamicGraphTemporalSignalBatch) :
  __init__ edge_indices edge_weights features targets batches kwargs = Ok self ->
  valid self.
Proof.
  intros H. apply init_Ok in H. destruct H as [Hc ->].
  apply consistent_lengths_true in Hc. destruct Hc as [[H1 [H2 [H3 H4]]] H5].
  constructor; simpl; try lia; [| reflexivity].
  intros key Hin. unfold getattr. simpl.
  destruct (dict_get (items kwargs) key) as [value |] eqn:E.
  - exists value. split; [reflexivity |].
    apply (H5 key). apply dict_get_Some_In. exact E.
  - apply dict_get_None in E. contradiction.
Qed.




(** ** Access by index *)

Lemma getitem_Ok {A : Type} (l : list A) (i : Z) :
  - len l <= i < len l -> exists a, getitem l i = Ok a.
Proof.
  intros Hi. destruct (Z_lt_ge_dec i 0) as [Hneg | Hpos].
  - rewrite getitem_wraps by lia.
    destruct (@getitem_nth _ l (len l + i)) as [a [Ha _]]; [lia |].
    exists a. exact Ha.
  - destruct (@getitem_nth _ l i) as [a [Ha _]]; [lia |].
    exists a. exact Ha.
Qed.

Section DictComprehension.

Context {V : Type}.
Implicit Types (keys : list string) (d : dict V).

Lemma dict_comprehension_ext keys (f g : string -> result V) d :
  (forall key, In key keys -> f key = g key) ->
  dict_comprehension keys f d = dict_comprehension keys g d.
Proof.
  revert d. induction keys as [| key keys IH]; intros d H; simpl; [reflexivity |].
  rewrite (H key) by (left; reflexivity).
  destruct (g key) as [v | e]; simpl; [| reflexivity].
  apply IH. intros k Hk. apply H. right. exact Hk.
Qed.

Lemma dict_comprehension_Ok keys (f : string -> result V) d :
  (forall key, In key keys -> exists v, f key = Ok v) ->
  exists d', dict_comprehension keys f d = Ok d'.
Proof.
  revert d. induction keys as [| key keys IH]; intros d H; simpl.
  - exists d. reflexivity.
  - destruct (H key) as [v Hv]; [left; reflexivity |]. rewrite Hv. simpl.
    apply IH. intros k Hk. apply H. right. exact Hk.
Qed.

Lemma dict_comprehension_keys keys (f : string -> result V) d d' :
  dict_comprehension keys f d = Ok d' ->
  forall k, In k (dict_keys d') <-> In k (dict_keys d) \/ In k keys.
Proof.
  revert d. induction keys as [| key keys IH]; intros d H k; simpl in *.
  - inversion H; subst. split; [intros Hk; left; exact Hk | intros [Hk | []]; exact Hk].
  - bind_inv H. rewrite (IH _ H k), dict_keys_set. split.
    + intros [[Hk | Hk] | Hk]; [right; left; congruence | left; exact Hk | right; right; exact Hk].
    + intros [Hk | [Hk | Hk]]; [left; right; exact Hk | left; left; congruence | right; exact Hk].
Qed.

Lemma dict_comprehension_outside keys (f : string -> result V) d d' :
  dict_comprehension keys f d = Ok d' ->
  forall k, ~ In k keys -> dict_get d' k = dict_get d k.
Proof.
  revert d. induction keys as [| key keys IH]; intros d H k Hk; simpl in *.
  - inversion H; subst. reflexivity.
  - bind_inv H. rewrite (IH _ H k) by (intros Hin; apply Hk; right; exact Hin).
    apply dict_get_set_other. intros ->. apply Hk. left. reflexivity.
Qed.

Lemma dict_comprehension_values keys (f : string -> result V) d d' :
  dict_comprehension keys f d = Ok d' ->
  forall k, In k keys -> exists v, f k = Ok v /\ dict_get d' k = Some v.
Proof.
  revert d. induction keys as [| key keys IH]; intros d H k Hk; simpl in *.
  - contradiction.
  - bind_inv H. destruct (in_dec string_dec k keys) as [Hin | Hout].
    + apply (IH _ H k Hin).
    + destruct Hk as [-> | Hk]; [| contradiction].
      exists v. split; [exact Hv |].
      rewrite (@dict_comprehension_outside keys f _ d' H k Hout).
      apply dict_get_set_same.
Qed.

End DictComprehension.

Lemma bind_assoc {A B C : Type} (r : result A) (f : A -> result B)
    (k : B -> result C) :
  (b <- (a <- r ;; f a) ;; k b) = (a <- r ;; b <- f a ;; k b).
Proof. destruct r; reflexivity. Qed.

(** ** Outcomes of library calls *)

Lemma library_outcome_bind {A B : Type} (r : result A) (k : A -> result B) :
  library_outcome r -> (forall a, r = Ok a -> library_outcome (k a)) ->
  library_outcome (a <- r ;; k a).
Proof.
  destruct r as [a | e]; simpl; intros Hr Hk.
  - apply Hk. reflexivity.
  - exact Hr.
Qed.

Lemma library_outcome_call {A : Type} (r : returned A) :
  library_outcome (call r).
Proof. destruct r; exact I. Qed.

Lemma library_outcome_cases {A : Type} (r : result A) :
  library_outcome r ->
  (exists a, r = Ok a) \/ (exists e, r = Raise (LibraryError e)).
Proof.
  destruct r as [a | [| | | | e]]; simpl; intros H; try contradiction.
  - left. exists a. reflexivity.
  - right. exists e. reflexivity.
Qed.

Lemma library_outcome_convert_entry (constructor : ndarray -> returned tensor)
    (element : option ndarray) :
  library_outcome (convert_entry (fun a => call (constructor a)) element).
Proof.
  destruct element as [a |]; simpl; [| exact I].
  destruct (constructor a); exact I.
Qed.

Lemma library_outcome_convert_by_kind (lib : library) (a : ndarray) :
  library_outcome (convert_by_kind lib a).
Proof.
  unfold convert_by_kind, torch.LongTensor, torch.FloatTensor.
  destruct (String.eqb _ "i"); [destruct (LongTensor_of lib a); exact I |].
  destruct (String.eqb _ "f"); [destruct (FloatTensor_of lib a); exact I |].
  exact I.
Qed.

Lemma library_outcome_convert_target (lib : library) (element : option ndarray) :
  library_outcome (convert_target lib element).
Proof.
  destruct element as [a |]; [apply library_outcome_convert_by_kind | exact I].
Qed.

Lemma library_outcome_Batch_new (lib : library)
    (x edge_index edge_attr y batch : option tensor)
    (additional_features : dict (option tensor)) :
  library_outcome (Batch_new lib x edge_index edge_attr y batch additional_features).
Proof.
  unfold Batch_new. destruct (existsb _ _); [exact I |].
  destruct (Batch_fails lib _); exact I.
Qed.

Lemma library_outcome_dict_comprehension {V : Type} (keys : list string)
    (value : string -> result V) (d : dict V) :
  (forall key, In key keys -> library_outcome (value key)) ->
  library_outcome (dict_comprehension keys value d).
Proof.
  revert d. induction keys as [| key keys IH]; intros d H; simpl; [exact I |].
  apply library_outcome_bind.
  - apply H. left. reflexivity.
  - intros v _. apply IH. intros k Hk. apply H. right. exact Hk.
Qed.

(** ** The accessors, as one indexing followed by one conversion *)

Lemma get_feature_eq (lib : library) (self : DynamicGraphTemporalSignalBatch)
    (time_index : Z) :
  _get_feature lib self time_index =
  (element <- getitem (features self) time_index ;;
   convert_entry (torch.FloatTensor lib) element).
Proof. reflexivity. Qed.

Lemma get_edge_index_eq (lib : library) (self : DynamicGraphTemporalSignalBatch)
    (time_index : Z) :
  _get_edge_index lib self time_index =
  (element <- getitem (edge_indices self) time_index ;;
   convert_entry (torch.LongTensor lib) element).
Proof. reflexivity. Qed.

Lemma get_edge_weight_eq (lib : library) (self : DynamicGraphTemporalSignalBatch)
    (time_index : Z) :
  _get_edge_weight lib self time_index =
  (element <- getitem (edge_weights self) time_index ;;
   convert_entry (torch.FloatTensor lib) element).
Proof. reflexivity. Qed.

Lemma get_batch_index_eq (lib : library) (self : DynamicGraphTemporalSignalBatch)
    (time_index : Z) :
  _get_batch_index lib self time_index =
  (element <- getitem (batches self) time_index ;;
   convert_entry (torch.LongTensor lib) element).
Proof. reflexivity. Qed.

Lemma get_target_eq (lib : library) (self : DynamicGraphTemporalSignalBatch)
    (time_index : Z) :
  _get_target lib self time_index =
  (element <- getitem (targets self) time_index ;; convert_target lib element).
Proof. reflexivity. Qed.

Lemma get_additional_feature_eq (lib : library)
    (self : DynamicGraphTemporalSignalBatch) (time_index : Z)
    (feature_key : string) :
  _get_additional_feature lib self time_index feature_key =
  (value <- getattr self feature_key ;;
   feature <- getitem value time_index ;;
   convert_by_kind lib feature).
Proof. reflexivity. Qed.

Lemma get_item_eq (lib : library) (self : DynamicGraphTemporalSignalBatch)
    (time_index : Z) :
  __get_item__ lib self time_index =
  (e1 <- getitem (features self) time_index ;;
   x <- convert_entry (torch.FloatTensor lib) e1 ;;
   e2 <- getitem (edge_indices self) time_index ;;
   edge_index <- convert_entry (torch.LongTensor lib) e2 ;;
   e3 <- getitem (edge_weights self) time_index ;;
   edge_weight <- convert_entry (torch.FloatTensor lib) e3 ;;
   e4 <- getitem (batches self) time_index ;;
   batch <- convert_entry (torch.LongTensor lib) e4 ;;
   e5 <- getitem (targets self) time_index ;;
   y <- convert_target lib e5 ;;
   d <- _get_additional_features lib self time_index ;;
   Batch_new lib x edge_index edge_weight y batch d).
Proof.
  unfold __get_item__.
  rewrite get_feature_eq, get_edge_index_eq, get_edge_weight_eq,
    get_batch_index_eq, get_target_eq.
  rewrite bind_assoc.
  destruct (getitem (features self) _); cbn [bind]; [| reflexivity].
  destruct (convert_entry _ _); cbn [bind]; [| reflexivity].
  rewrite bind_assoc.
  destruct (getitem (edge_indices self) _); cbn [bind]; [| reflexivity].
  destruct (convert_entry _ _); cbn [bind]; [| reflexivity].
  rewrite bind_assoc.
  destruct (getitem (edge_weights self) _); cbn [bind]; [| reflexivity].
  destruct (convert_entry _ _); cbn [bind]; [| reflexivity].
  rewrite bind_assoc.
  destruct (getitem (batches self) _); cbn [bind]; [| reflexivity].
  destruct (convert_entry _ _); cbn [bind]; [| reflexivity].
  rewrite bind_assoc.
  destruct (getitem (targets self) _); cbn [bind]; [| reflexivity].
  destruct (convert_target _ _); cbn [bind]; [| reflexivity].
  destruct (_get_additional_features _ _ _); cbn [bind]; [| reflexivity].
  destruct (Batch_new _ _ _ _ _ _ _); reflexivity.
Qed.

Lemma Batch_new_Ok (lib : library)
    (x0 edge_index0 edge_attr0 y0 batch0 : option tensor)
    (d : dict (option tensor)) (snapshot : Batch) :
  Batch_new lib x0 edge_index0 edge_attr0 y0 batch0 d = Ok snapshot ->
  snapshot = {| x := x0; edge_index := edge_index0; edge_attr := edge_attr0;
                y := y0; batch := batch0; additional_features := d |} /\
  (forall key, In key (dict_keys d) -> ~ In key batch_keywords).
Proof.
  unfold Batch_new.
  destruct (existsb _ (dict_keys d)) eqn:E; [discriminate |].
  destruct (Batch_fails lib _); [discriminate |].
  intros H. inversion H. split; [reflexivity |].
  intros key Hkey Hclash.
  assert (Hex : existsb (fun key => mem key batch_keywords) (dict_keys d) = true).
  { apply existsb_exists. exists key. split; [exact Hkey |].
    apply mem_In. exact Hclash. }
  congruence.
Qed.

Lemma sample_constructed :
  __init__ sample_edge_indices sample_edge_weights sample_features
    sample_targets sample_batches weight_extra = Ok sample.
Proof. reflexivity. Qed.

Lemma sample_snapshots :
  __get_item__ reference sample 0 = Ok sample_snapshot_0 /\
  __get_item__ reference sample 1 = Ok sample_snapshot_1.
Proof. split; reflexivity. Qed.

Lemma reference_conforms : conforms reference.
Proof.
  constructor; simpl.
  - intros a v. unfold reference_LongTensor.
    destruct (is_other (buffer a)); [discriminate |].
    destruct (size_argument a) as [n |].
    + destruct (n <? 0); [discriminate |]. intros H. inversion H. reflexivity.
    + intros H. inversion H. reflexivity.
  - intros a v. unfold reference_FloatTensor.
    destruct (is_other (buffer a)); [discriminate |].
    destruct (size_argument a) as [n |].
    + destruct (n <? 0); [discriminate |]. intros H. inversion H. reflexivity.
    + intros H. inversion H. reflexivity.
  - intros a v. unfold reference_LongTensor, size_argument.
    destruct (is_other (buffer a)) eqn:Hother; [discriminate |].
    destruct (shape a) as [| n s] eqn:Hshape; [intros _ H; contradiction |].
    intros H _. inversion H. eexists. split; [reflexivity |].
    destruct (buffer a) as [bs | zs | zs | fs | k count]; simpl;
      try reflexivity; [| discriminate Hother].
    clear. induction fs as [| f fs IH]; constructor; [| exact IH].
    intros i Hi Hrange. unfold int64_of_float. rewrite Hi, Hrange. reflexivity.
  - intros a v. unfold reference_FloatTensor, size_argument.
    destruct (is_other (buffer a)) eqn:Hother; [discriminate |].
    destruct (shape a) as [| n s] eqn:Hshape; [intros _ H; contradiction |].
    intros H _. inversion H. eexists. split; [reflexivity |].
    destruct (buffer a) as [bs | zs | zs | fs | k count]; simpl;
      try reflexivity. discriminate Hother.
Qed.

(** ** Access by index, within and outside the range *)

Section Access.

Variable lib : library.
Variable self : DynamicGraphTemporalSignalBatch.
Hypothesis self_valid : valid self.

Local Abbreviation T := (len (features self)).

Lemma additional_feature_in_range (time_index : Z) (key : string) :
  - T <= time_index < T -> In key (additional_feature_keys self) ->
  exists value a,
    getattr self key = Ok value /\ getitem value time_index = Ok a /\
    _get_additional_feature lib self time_index key = convert_by_kind lib a.
Proof.
  intros Hi Hkey. rewrite get_additional_feature_eq.
  destruct (valid_additional self_valid key Hkey) as [value [Hget Hlen]].
  destruct (getitem_Ok value time_index) as [a Ha]; [rewrite Hlen; exact Hi |].
  exists value, a. rewrite Hget. cbn [bind]. rewrite Ha. cbn [bind].
  repeat split; reflexivity.
Qed.

Lemma additional_features_outcome (time_index : Z) :
  - T <= time_index < T ->
  library_outcome (_get_additional_features lib self time_index).
Proof.
  intros Hi. apply library_outcome_dict_comprehension. intros key Hkey.
  destruct (additional_feature_in_range time_index key Hi Hkey)
    as [value [a [_ [_ ->]]]].
  apply library_outcome_convert_by_kind.
Qed.

Lemma entries_in_range (time_index : Z) :
  - T <= time_index < T ->
  exists e1 e2 e3 e4 e5,
    getitem (features self) time_index = Ok e1 /\
    getitem (edge_indices self) time_index = Ok e2 /\
    getitem (edge_weights self) time_index = Ok e3 /\
    getitem (batches self) time_index = Ok e4 /\
    getitem (targets self) time_index = Ok e5.
Proof.
  intros Hi.
  destruct (getitem_Ok (features self) time_index) as [e1 H1]; [exact Hi |].
  destruct (getitem_Ok (edge_indices self) time_index) as [e2 H2];
    [rewrite (valid_edge_indices self_valid); exact Hi |].
  destruct (getitem_Ok (edge_weights self) time_index) as [e3 H3];
    [rewrite (valid_edge_weights self_valid); exact Hi |].
  destruct (getitem_Ok (batches self) time_index) as [e4 H4];
    [rewrite (valid_batches self_valid); exact Hi |].
  destruct (getitem_Ok (targets self) time_index) as [e5 H5];
    [rewrite (valid_targets self_valid); exact Hi |].
  exists e1, e2, e3, e4, e5. repeat split; assumption.
Qed.

Lemma get_item_outcome (time_index : Z) :
  - T <= time_index < T ->
  library_outcome (__get_item__ lib self time_index).
Proof.
  intros Hi. rewrite get_item_eq.
  destruct (entries_in_range time_index Hi)
    as (e1 & e2 & e3 & e4 & e5 & H1 & H2 & H3 & H4 & H5).
  rewrite H1, H2, H3, H4, H5. cbn [bind].
  apply library_outcome_bind; [apply library_outcome_convert_entry |].
  intros v1 _. cbn [bind].
  apply library_outcome_bind; [apply library_outcome_convert_entry |].
  intros v2 _. cbn [bind].
  apply library_outcome_bind; [apply library_outcome_convert_entry |].
  intros v3 _. cbn [bind].
  apply library_outcome_bind; [apply library_outcome_convert_entry |].
  intros v4 _. cbn [bind].
  apply library_outcome_bind; [apply library_outcome_convert_target |].
  intros v5 _.
  apply library_outcome_bind; [apply additional_features_outcome; exact Hi |].
  intros d _. apply library_outcome_Batch_new.
Qed.

Lemma additional_feature_wraps (time_index : Z) (key : string) :
  - T <= time_index < 0 -> In key (additional_feature_keys self) ->
  _get_additional_feature lib self time_index key
  = _get_additional_feature lib self (T + time_index) key.
Proof.
  intros Hi Hkey. rewrite !get_additional_feature_eq.
  destruct (valid_additional self_valid key Hkey) as [value [Hget Hlen]].
  rewrite Hget. cbn [bind].
  rewrite getitem_wraps by (rewrite Hlen; exact Hi).
  rewrite Hlen. reflexivity.
Qed.

Lemma get_item_wraps (time_index : Z) :
  - T <= time_index < 0 ->
  __get_item__ lib self time_index = __get_item__ lib self (T + time_index).
Proof.
  intros Hi. rewrite !get_item_eq. unfold _get_additional_features.
  rewrite (@getitem_wraps _ (features self)) by exact Hi.
  rewrite (@getitem_wraps _ (edge_indices self))
    by (rewrite (valid_edge_indices self_valid); exact Hi).
  rewrite (@getitem_wraps _ (edge_weights self))
    by (rewrite (valid_edge_weights self_valid); exact Hi).
  rewrite (@getitem_wraps _ (batches self))
    by (rewrite (valid_batches self_valid); exact Hi).
  rewrite (@getitem_wraps _ (targets self))
    by (rewrite (valid_targets self_valid); exact Hi).
  rewrite (valid_edge_indices self_valid), (valid_edge_weights self_valid),
    (valid_batches self_valid), (valid_targets self_valid).
  rewrite (@dict_comprehension_ext _ (additional_feature_keys self)
             (fun key => _get_additional_feature lib self time_index key)
             (fun key => _get_additional_feature lib self (T + time_index) key)).
  - reflexivity.
  - intros key Hkey. apply additional_feature_wraps; assumption.
Qed.

End Access.

Lemma get_item_outside (lib : library)
    (self : DynamicGraphTemporalSignalBatch) (time_index : Z) :
  time_index < - len (features self) \/ len (features self) <= time_index ->
  __get_item__ lib self time_index = Raise IndexError.
Proof.
  intros Hi. rewrite get_item_eq.
  destruct Hi as [Hi | Hi];
    [rewrite getitem_below by exact Hi | rewrite getitem_above by exact Hi];
    reflexivity.
Qed.




(** C3, as the code has it: [__get_item__] raises [IndexError] exactly at
    the indices [time_index >= snapshot_count] and
    [time_index < - snapshot_count]; the negative indices from
    [- snapshot_count] to [-1] are accepted. *)
Theorem index_error_outside (lib : library) (edge_indices : Edge_Indices)
    (edge_weights : Edge_Weights) (features : Node_Features)
    (targets : Targets) (batches : Batches) (kwargs : keywords)
    (self : DynamicGraphTemporalSignalBatch) (time_index : Z) :
  __init__ edge_indices edge_weights features targets batches kwargs = Ok self ->
  (__get_item__ lib self time_index = Raise IndexError <->
   time_index < - len features \/ len features <= time_index).
Proof.
  intros Hinit. pose proof (init_valid _ _ _ _ _ _ _ Hinit) as Hvalid.
  apply init_Ok in Hinit. destruct Hinit as [_ ->].
  split.
  - intros Hraise.
    destruct (Z_lt_ge_dec time_index (- len features)) as [Hlo | Hlo];
      [left; exact Hlo |].
    destruct (Z_lt_ge_dec time_index (len features)) as [Hhi | Hhi];
      [| right; lia].
    assert (Hout : library_outcome (__get_item__ lib _ time_index))
      by (apply (get_item_outcome lib _ Hvalid); simpl; lia).
    rewrite Hraise in Hout. contradiction.
  - intros Hi. apply get_item_outside. simpl. exact Hi.
Qed.

Lemma index_error_outside_witness :
  __get_item__ reference sample 2 = Raise IndexError /\
  __get_item__ reference sample (-3) = Raise IndexError.
Proof.
  split.
  - apply (proj2 (index_error_outside reference _ _ _ _ _ _ _ 2
                    sample_constructed)).
    right. vm_compute. discriminate.
  - apply (proj2 (index_error_outside reference _ _ _ _ _ _ _ (-3)
                    sample_constructed)).
    left. vm_compute. reflexivity.
Defined.

(** The index [-1] is below 0, and the two-step sample answers it with its
    last snapshot instead of raising. *)
Lemma negative_index_accepted :
  __init__ sample_edge_indices sample_edge_weights sample_features
    sample_targets sample_batches weight_extra = Ok sample /\
  -1 < 0 /\
  __get_item__ reference sample (-1) = Ok sample_snapshot_1 /\
  __get_item__ reference sample (-1) <> Raise IndexError.
Proof.
  split; [reflexivity |]. split; [reflexivity |].
  split; [reflexivity | discriminate].
Qed.

(** C10, as the code has it: for a negative index [time_index] with
    [- snapshot_count <= time_index < 0], [__get_item__] does exactly what it
    does at the index [snapshot_count + time_index]: it returns the same
    snapshot, or raises the same exception of a failed conversion or
    [Batch] construction; it does not raise [IndexError]. *)
Theorem negative_index_wraps (lib : library) (edge_indices : Edge_Indices)
    (edge_weights : Edge_Weights) (features : Node_Features)
    (targets : Targets) (batches : Batches) (kwargs : keywords)
    (self : DynamicGraphTemporalSignalBatch) (time_index : Z) :
  __init__ edge_indices edge_weights features targets batches kwargs = Ok self ->
  - len features <= time_index < 0 ->
  __get_item__ lib self time_index
  = __get_item__ lib self (len features + time_index) /\
  ((exists snapshot, __get_item__ lib self time_index = Ok snapshot) \/
   (exists e, __get_item__ lib self time_index = Raise (LibraryError e))).
Proof.
  intros Hinit Hi. pose proof (init_valid _ _ _ _ _ _ _ Hinit) as Hvalid.
  apply init_Ok in Hinit. destruct Hinit as [_ ->].
  split.
  - apply (get_item_wraps lib _ Hvalid). simpl. exact Hi.
  - apply library_outcome_cases. apply (get_item_outcome lib _ Hvalid).
    simpl. lia.
Qed.

Lemma negative_index_wraps_witness :
  __get_item__ reference sample (-2)
  = __get_item__ reference sample (len sample_features + -2).
Proof.
  apply (negative_index_wraps reference _ _ _ _ _ _ _ _ sample_constructed).
  vm_compute. split; [discriminate | reflexivity].
Defined.

(** With the additional feature under the name [x], the index [-1] of the
    two-step sample is within [-2, 0) and the access fails. *)
Lemma negative_index_fails :
  __init__ sample_edge_indices sample_edge_weights sample_features
    sample_targets sample_batches named_x = Ok sample_x /\
  - len sample_features <= -1 < 0 /\
  __get_item__ reference sample_x (-1) = Raise (LibraryError TypeError) /\
  ~ (exists snapshot, __get_item__ reference sample_x (-1) = Ok snapshot).
Proof.
  split; [reflexivity |]. split; [split; [discriminate | reflexivity] |].
  split; [reflexivity |]. intros [snapshot H]. discriminate H.
Qed.

(** ** The fields of a snapshot *)

Lemma option_Ok_eq {A : Type} (a b : A) : Ok a = Ok b -> a = b.
Proof. intros H. inversion H. reflexivity. Qed.

Lemma convert_entry_None (constructor : ndarray -> result tensor)
    (w : option tensor) :
  convert_entry constructor None = Ok w -> w = None.
Proof. simpl. intros H. inversion H. reflexivity. Qed.

Lemma convert_entry_Some (constructor : ndarray -> result tensor)
    (a : ndarray) (w : option tensor) :
  convert_entry constructor (Some a) = Ok w ->
  exists v, w = Some v /\ constructor a = Ok v.
Proof.
  simpl. intros H. bind_inv H. inversion H; subst.
  exists v. split; [reflexivity | assumption].
Qed.

Lemma get_item_fields (lib : library) (self : DynamicGraphTemporalSignalBatch)
    (time_index : Z) (snapshot : Batch) :
  __get_item__ lib self time_index = Ok snapshot ->
  exists e1 e2 e3 e4 e5,
    getitem (features self) time_index = Ok e1 /\
    getitem (edge_indices self) time_index = Ok e2 /\
    getitem (edge_weights self) time_index = Ok e3 /\
    getitem (batches self) time_index = Ok e4 /\
    getitem (targets self) time_index = Ok e5 /\
    _get_additional_features lib self time_index
    = Ok (additional_features snapshot) /\
    convert_entry (torch.FloatTensor lib) e1 = Ok (x snapshot) /\
    convert_entry (torch.LongTensor lib) e2 = Ok (edge_index snapshot) /\
    convert_entry (torch.FloatTensor lib) e3 = Ok (edge_attr snapshot) /\
    convert_entry (torch.LongTensor lib) e4 = Ok (batch snapshot) /\
    convert_target lib e5 = Ok (y snapshot).
Proof.
  rewrite get_item_eq. intros H.
  apply bind_Ok in H. destruct H as [e1 [H1 H]].
  apply bind_Ok in H. destruct H as [w1 [Hw1 H]].
  apply bind_Ok in H. destruct H as [e2 [H2 H]].
  apply bind_Ok in H. destruct H as [w2 [Hw2 H]].
  apply bind_Ok in H. destruct H as [e3 [H3 H]].
  apply bind_Ok in H. destruct H as [w3 [Hw3 H]].
  apply bind_Ok in H. destruct H as [e4 [H4 H]].
  apply bind_Ok in H. destruct H as [w4 [Hw4 H]].
  apply bind_Ok in H. destruct H as [e5 [H5 H]].
  apply bind_Ok in H. destruct H as [w5 [Hw5 H]].
  apply bind_Ok in H. destruct H as [d [Hd H]].
  apply Batch_new_Ok in H. destruct H as [-> _]. simpl.
  exists e1, e2, e3, e4, e5. repeat split; assumption.
Qed.

(** From a successful construction to the state of the object. *)
Ltac constructed Hinit Hvalid :=
  pose proof (init_valid _ _ _ _ _ _ _ Hinit) as Hvalid;
  apply init_Ok in Hinit; destruct Hinit as [_ ->].

(** C4: a core entry that is [None] is answered by its accessor with [None],
    without any conversion, and in the snapshot that [__get_item__] returns
    the field is [None], for each of the five core fields. *)
Theorem absent_passthrough (lib : library) (edge_indices : Edge_Indices)
    (edge_weights : Edge_Weights) (features : Node_Features)
    (targets : Targets) (batches : Batches) (kwargs : keywords)
    (self : DynamicGraphTemporalSignalBatch) (time_index : Z) :
  __init__ edge_indices edge_weights features targets batches kwargs = Ok self ->
  ((getitem edge_indices time_index = Ok None ->
    _get_edge_index lib self time_index = Ok None) /\
   (getitem edge_weights time_index = Ok None ->
    _get_edge_weight lib self time_index = Ok None) /\
   (getitem features time_index = Ok None ->
    _get_feature lib self time_index = Ok None) /\
   (getitem targets time_index = Ok None ->
    _get_target lib self time_index = Ok None) /\
   (getitem batches time_index = Ok None ->
    _get_batch_index lib self time_index = Ok None)) /\
  forall snapshot, __get_item__ lib self time_index = Ok snapshot ->
    (getitem edge_indices time_index = Ok None -> edge_index snapshot = None) /\
    (getitem edge_weights time_index = Ok None -> edge_attr snapshot = None) /\
    (getitem features time_index = Ok None -> x snapshot = None) /\
    (getitem targets time_index = Ok None -> y snapshot = None) /\
    (getitem batches time_index = Ok None -> batch snapshot = None).
Proof.
  intros Hinit. constructed Hinit Hvalid. split.
  - unfold _get_edge_index, _get_edge_weight, _get_feature, _get_target,
      _get_batch_index. simpl.
    repeat split; intros ->; reflexivity.
  - intros snapshot Hs. apply get_item_fields in Hs. simpl in Hs.
    destruct Hs as (e1 & e2 & e3 & e4 & e5 & H1 & H2 & H3 & H4 & H5 & _
                    & Hx & Hei & Hea & Hb & Hy).
    rewrite H1, H2, H3, H4, H5.
    repeat split; intros H; apply option_Ok_eq in H; subst.
    + apply (convert_entry_None _ _ Hei).
    + apply (convert_entry_None _ _ Hea).
    + apply (convert_entry_None _ _ Hx).
    + simpl in Hy. inversion Hy. reflexivity.
    + apply (convert_entry_None _ _ Hb).
Qed.

Lemma absent_passthrough_witness :
  _get_edge_index reference sample 0 = Ok None /\
  edge_index sample_snapshot_0 = None /\ edge_attr sample_snapshot_0 = None.
Proof.
  destruct (absent_passthrough reference _ _ _ _ _ _ _ 0 sample_constructed)
    as [[Haccessor _] Hfields].
  destruct (Hfields sample_snapshot_0 eq_refl) as [Hei [Hea _]].
  split; [apply Haccessor; reflexivity |].
  split; [apply Hei | apply Hea]; reflexivity.
Defined.

(** ** Element types of the tensors *)

Lemma wrap_int64_id (z : Z) : in_int64 z = true -> wrap_int64 z = z.
Proof.
  unfold in_int64, int64_min, int64_max, wrap_int64.
  rewrite andb_true_iff, !Z.leb_le.
  change (2 ^ 63) with 9223372036854775808.
  change (2 ^ 64) with 18446744073709551616.
  intros [Hlo Hhi]. rewrite Z.mod_small; lia.
Qed.

Lemma map_wrap_int64_id (zs : list Z) :
  forallb in_int64 zs = true -> map wrap_int64 zs = zs.
Proof.
  induction zs as [| z zs IH]; simpl; [reflexivity |].
  rewrite andb_true_iff. intros [Hz Hzs].
  rewrite wrap_int64_id by exact Hz. rewrite IH by exact Hzs. reflexivity.
Qed.

Lemma kind_i (a : ndarray) :
  kind (dtype a) = "i" <-> exists zs, buffer a = Ints zs.
Proof.
  unfold dtype. simpl. destruct (buffer a) as [bs | zs | zs | fs | k count];
    split; try discriminate; try (intros [zs' H]; discriminate H).
  - intros _. exists zs. reflexivity.
  - reflexivity.
  - destruct k; discriminate.
Qed.

Lemma kind_f (a : ndarray) :
  kind (dtype a) = "f" <-> exists fs, buffer a = Floats fs.
Proof.
  unfold dtype. simpl. destruct (buffer a) as [bs | zs | zs | fs | k count];
    split; try discriminate; try (intros [fs' H]; discriminate H).
  - intros _. exists fs. reflexivity.
  - reflexivity.
  - destruct k; discriminate.
Qed.

Lemma convert_by_kind_i (lib : library) (a : ndarray) :
  kind (dtype a) = "i" ->
  convert_by_kind lib a = (v <- torch.LongTensor lib a ;; Ok (Some v)).
Proof. unfold convert_by_kind. intros ->. reflexivity. Qed.

Lemma convert_by_kind_f (lib : library) (a : ndarray) :
  kind (dtype a) = "f" ->
  convert_by_kind lib a = (v <- torch.FloatTensor lib a ;; Ok (Some v)).
Proof. unfold convert_by_kind. intros ->. reflexivity. Qed.


Lemma convert_by_kind_Ok_i (lib : library) (a : ndarray) (w : option tensor) :
  kind (dtype a) = "i" -> convert_by_kind lib a = Ok w ->
  exists v, w = Some v /\ torch.LongTensor lib a = Ok v.
Proof.
  intros Hk H. rewrite (convert_by_kind_i lib a Hk) in H.
  bind_inv H. inversion H; subst. exists v. split; [reflexivity | assumption].
Qed.

Lemma convert_by_kind_Ok_f (lib : library) (a : ndarray) (w : option tensor) :
  kind (dtype a) = "f" -> convert_by_kind lib a = Ok w ->
  exists v, w = Some v /\ torch.FloatTensor lib a = Ok v.
Proof.
  intros Hk H. rewrite (convert_by_kind_f lib a Hk) in H.
  bind_inv H. inversion H; subst. exists v. split; [reflexivity | assumption].
Qed.

Lemma call_Ok {A : Type} (r : returned A) (a : A) :
  call r = Ok a -> r = Returns a.
Proof. destruct r; simpl; intros H; inversion H; reflexivity. Qed.

Lemma LongTensor_Ints (lib : library) (a : ndarray) (zs : list Z) (v : tensor) :
  conforms lib -> torch.LongTensor lib a = Ok v -> shape a <> [] ->
  buffer a = Ints zs -> wf_ndarray a = true ->
  v = Long (shape a) zs.
Proof.
  intros Hlib Hv Hshape Hzs Hwf. apply call_Ok in Hv.
  destruct (LongTensor_array lib Hlib a v Hv Hshape) as [data [-> Hdata]].
  rewrite Hzs in Hdata. simpl in Hdata. subst data.
  unfold wf_ndarray in Hwf. rewrite Hzs in Hwf.
  apply andb_true_iff in Hwf. destruct Hwf as [_ Hall].
  rewrite map_wrap_int64_id by exact Hall. reflexivity.
Qed.

(** C5, as the code has it: in the snapshot that [__get_item__] returns, the
    target made from an array of kind ["i"] is what [torch.LongTensor] gave,
    an integer tensor, and when the array has at least one dimension it has
    the same shape and the same elements in the same order; the target made
    from an array of kind ["f"] is what [torch.FloatTensor] gave, a
    floating-point tensor; an edge index and a batch vector always come from
    [torch.LongTensor], an edge weight and a feature array always from
    [torch.FloatTensor], whatever the kind of the array. *)
Theorem conversion_element_types (lib : library) (edge_indices : Edge_Indices)
    (edge_weights : Edge_Weights) (features : Node_Features)
    (targets : Targets) (batches : Batches) (kwargs : keywords)
    (self : DynamicGraphTemporalSignalBatch) (time_index : Z)
    (snapshot : Batch) :
  conforms lib ->
  __init__ edge_indices edge_weights features targets batches kwargs = Ok self ->
  __get_item__ lib self time_index = Ok snapshot ->
  (forall a, getitem targets time_index = Ok (Some a) ->
     kind (dtype a) = "i" ->
     exists v,
       y snapshot = Some v /\ torch.LongTensor lib a = Ok v /\
       is_long v = true /\
       (shape a <> [] -> wf_ndarray a = true ->
        exists zs, buffer a = Ints zs /\ v = Long (shape a) zs)) /\
  (forall a, getitem targets time_index = Ok (Some a) ->
     kind (dtype a) = "f" ->
     exists v,
       y snapshot = Some v /\ torch.FloatTensor lib a = Ok v /\
       is_float v = true) /\
  (forall a, getitem edge_indices time_index = Ok (Some a) ->
     exists v,
       edge_index snapshot = Some v /\ torch.LongTensor lib a = Ok v /\
       is_long v = true) /\
  (forall a, getitem batches time_index = Ok (Some a) ->
     exists v,
       batch snapshot = Some v /\ torch.LongTensor lib a = Ok v /\
       is_long v = true) /\
  (forall a, getitem edge_weights time_index = Ok (Some a) ->
     exists v,
       edge_attr snapshot = Some v /\ torch.FloatTensor lib a = Ok v /\
       is_float v = true) /\
  (forall a, getitem features time_index = Ok (Some a) ->
     exists v,
       x snapshot = Some v /\ torch.FloatTensor lib a = Ok v /\
       is_float v = true).
Proof.
  intros Hlib Hinit Hs. constructed Hinit Hvalid.
  apply get_item_fields in Hs. simpl in Hs.
  destruct Hs as (e1 & e2 & e3 & e4 & e5 & H1 & H2 & H3 & H4 & H5 & _
                  & Hx & Hei & Hea & Hb & Hy).
  rewrite H1, H2, H3, H4, H5.
  assert (HL : forall a v, torch.LongTensor lib a = Ok v -> is_long v = true).
  { intros a v Hv. apply call_Ok in Hv. apply (LongTensor_long lib Hlib a v Hv). }
  assert (HF : forall a v, torch.FloatTensor lib a = Ok v -> is_float v = true).
  { intros a v Hv. apply call_Ok in Hv. apply (FloatTensor_float lib Hlib a v Hv). }
  split; [| split; [| split; [| split; [| split]]]].
  - intros a Ha Hk. apply option_Ok_eq in Ha. subst e5. simpl in Hy.
    destruct (convert_by_kind_Ok_i lib a _ Hk Hy) as [v [Hyv Hv]].
    exists v. split; [exact Hyv |]. split; [exact Hv |].
    split; [apply (HL a v Hv) |].
    intros Hshape Hwf. destruct (proj1 (kind_i a) Hk) as [zs Hzs].
    exists zs. split; [exact Hzs |].
    apply (LongTensor_Ints lib a zs v Hlib Hv Hshape Hzs Hwf).
  - intros a Ha Hk. apply option_Ok_eq in Ha. subst e5. simpl in Hy.
    destruct (convert_by_kind_Ok_f lib a _ Hk Hy) as [v [Hyv Hv]].
    exists v. split; [exact Hyv |]. split; [exact Hv | apply (HF a v Hv)].
  - intros a Ha. apply option_Ok_eq in Ha. subst e2.
    destruct (convert_entry_Some _ _ _ Hei) as [v [Hw Hv]].
    exists v. split; [exact Hw |]. split; [exact Hv | apply (HL a v Hv)].
  - intros a Ha. apply option_Ok_eq in Ha. subst e4.
    destruct (convert_entry_Some _ _ _ Hb) as [v [Hw Hv]].
    exists v. split; [exact Hw |]. split; [exact Hv | apply (HL a v Hv)].
  - intros a Ha. apply option_Ok_eq in Ha. subst e3.
    destruct (convert_entry_Some _ _ _ Hea) as [v [Hw Hv]].
    exists v. split; [exact Hw |]. split; [exact Hv | apply (HF a v Hv)].
  - intros a Ha. apply option_Ok_eq in Ha. subst e1.
    destruct (convert_entry_Some _ _ _ Hx) as [v [Hw Hv]].
    exists v. split; [exact Hw |]. split; [exact Hv | apply (HF a v Hv)].
Qed.

Lemma conversion_element_types_witness :
  y sample_snapshot_1 = Some (Long [1%nat] [1]) /\
  exists v, edge_index sample_snapshot_1 = Some v /\ is_long v = true.
Proof.
  destruct (conversion_element_types reference _ _ _ _ _ _ _ 1
              sample_snapshot_1 reference_conforms sample_constructed eq_refl)
    as [Hyi [_ [Hei _]]].
  split.
  - destruct (Hyi (int_array [1%nat] [1]) eq_refl eq_refl)
      as [v [Hy [_ [_ Hsame]]]].
    destruct Hsame as [zs [Hzs Hv]]; [discriminate | reflexivity |].
    inversion Hzs; subst zs. rewrite Hy, Hv. reflexivity.
  - destruct (Hei (int_array [1; 2]%nat [0; 1]) eq_refl) as [v [Hv [_ Hlong]]].
    exists v. split; assumption.
Defined.

(** The integer 0 as a target array of no dimension: it is of kind ["i"]
    and well formed, the access succeeds, and the target of the snapshot is
    an integer tensor of shape [(0,)] without elements, not a tensor that
    holds 0: the array was read as a size. *)
Lemma target_read_as_size :
  exists self snapshot,
    __init__ [None] [None] [None] zero_targets [None] no_kwargs = Ok self /\
    0 <= 0 < len (@cons (option ndarray) None []) /\
    getitem zero_targets 0 = Ok (Some zero) /\
    kind (dtype zero) = "i" /\ wf_ndarray zero = true /\
    __get_item__ reference self 0 = Ok snapshot /\
    y snapshot = Some (Long [0%nat] []) /\
    tensor_shape (Long [0%nat] []) <> shape zero /\
    same_values zero (Long [0%nat] []) = false.
Proof.
  eexists. eexists. split; [reflexivity |].
  split; [split; [discriminate | reflexivity] |].
  split; [reflexivity |]. split; [reflexivity |]. split; [reflexivity |].
  split; [reflexivity |]. split; [reflexivity |].
  split; [discriminate | reflexivity].
Qed.

(** ** Additional features *)

Lemma dict_comprehension_order {V : Type} (keys : list string)
    (f : string -> result V) (d d' : dict V) :
  NoDup (dict_keys d ++ keys) ->
  dict_comprehension keys f d = Ok d' ->
  dict_keys d' = dict_keys d ++ keys.
Proof.
  revert d. induction keys as [| key keys IH]; intros d Hnd H; simpl in H.
  - inversion H; subst. rewrite app_nil_r. reflexivity.
  - bind_inv H.
    assert (Hkey : ~ In key (dict_keys d)).
    { apply NoDup_remove_2 in Hnd. intros Hin. apply Hnd.
      apply in_or_app. left. exact Hin. }
    rewrite dict_set_new in H by exact Hkey.
    apply IH in H.
    + rewrite H. unfold dict_keys. rewrite map_app, <- app_assoc. reflexivity.
    + unfold dict_keys. rewrite map_app, <- app_assoc. exact Hnd.
Qed.

Lemma additional_features_spec (lib : library)
    (self : DynamicGraphTemporalSignalBatch)
    (time_index : Z) (d : dict (option tensor)) :
  NoDup (additional_feature_keys self) ->
  _get_additional_features lib self time_index = Ok d ->
  dict_keys d = additional_feature_keys self /\
  forall key, In key (additional_feature_keys self) ->
    exists value a w,
      getattr self key = Ok value /\ getitem value time_index = Ok a /\
      convert_by_kind lib a = Ok w /\ dict_get d key = Some w.
Proof.
  unfold _get_additional_features. intros Hnd H. split.
  - apply (dict_comprehension_order _ _ [] d Hnd H).
  - intros key Hkey.
    destruct (dict_comprehension_values _ _ _ _ H key Hkey) as [w [Hw Hget]].
    rewrite get_additional_feature_eq in Hw.
    apply bind_Ok in Hw. destruct Hw as [value [Hvalue Hw]].
    apply bind_Ok in Hw. destruct Hw as [a [Ha Hw]].
    exists value, a, w. repeat split; assumption.
Qed.

(** C8: in the snapshot that [__get_item__] returns, the additional-feature
    mapping has exactly the recorded keys, in their order, and under each key
    the entry of that key's list at the index, converted by the rule that
    converts a target: an array of kind ["i"] by [torch.LongTensor], to an
    integer tensor, an array of kind ["f"] by [torch.FloatTensor], to a
    floating-point tensor. *)
Theorem additional_features_converted (lib : library)
    (edge_indices : Edge_Indices)
    (edge_weights : Edge_Weights) (features : Node_Features)
    (targets : Targets) (batches : Batches) (kwargs : keywords)
    (self : DynamicGraphTemporalSignalBatch) (time_index : Z)
    (snapshot : Batch) :
  __init__ edge_indices edge_weights features targets batches kwargs = Ok self ->
  __get_item__ lib self time_index = Ok snapshot ->
  additional_feature_keys self = dict_keys (items kwargs) /\
  dict_keys (additional_features snapshot) = additional_feature_keys self /\
  (forall key value, In (key, value) (items kwargs) ->
     exists a w,
       getitem value time_index = Ok a /\
       convert_by_kind lib a = Ok w /\
       dict_get (additional_features snapshot) key = Some w /\
       (kind (dtype a) = "i" ->
        exists v, w = Some v /\ torch.LongTensor lib a = Ok v /\
                  (conforms lib -> is_long v = true)) /\
       (kind (dtype a) = "f" ->
        exists v, w = Some v /\ torch.FloatTensor lib a = Ok v /\
                  (conforms lib -> is_float v = true))) /\
  (forall a, getitem targets time_index = Ok (Some a) ->
     convert_by_kind lib a = Ok (y snapshot)).
Proof.
  intros Hinit Hs.
  pose proof (proj1 (distinct_NoDup _) (items_distinct kwargs)) as Hnd.
  constructed Hinit Hvalid.
  split; [reflexivity |].
  apply get_item_fields in Hs. simpl in Hs.
  destruct Hs as (e1 & e2 & e3 & e4 & e5 & _ & _ & _ & _ & H5 & Hadd
                  & _ & _ & _ & _ & Hy).
  apply additional_features_spec in Hadd; [| exact Hnd].
  destruct Hadd as [Hkeys Hvalues]. simpl in Hkeys, Hvalues.
  split; [exact Hkeys |]. split.
  - intros key value Hin.
    destruct (Hvalues key) as [value' [a [w [Hget [Ha [Hw Hd]]]]]].
    { change key with (fst (key, value)). apply in_map. exact Hin. }
    unfold getattr in Hget. simpl in Hget.
    rewrite (dict_get_In _ _ _ Hnd Hin) in Hget.
    apply option_Ok_eq in Hget. subst value'.
    exists a, w. split; [exact Ha |]. split; [exact Hw |].
    split; [exact Hd |]. split; intros Hk.
    + destruct (convert_by_kind_Ok_i lib a w Hk Hw) as [v [Hwv Hv]].
      exists v. split; [exact Hwv |]. split; [exact Hv |].
      intros Hlib. apply call_Ok in Hv.
      apply (LongTensor_long lib Hlib a v Hv).
    + destruct (convert_by_kind_Ok_f lib a w Hk Hw) as [v [Hwv Hv]].
      exists v. split; [exact Hwv |]. split; [exact Hv |].
      intros Hlib. apply call_Ok in Hv.
      apply (FloatTensor_float lib Hlib a v Hv).
  - intros a Ha. rewrite H5 in Ha. apply option_Ok_eq in Ha. subst e5.
    exact Hy.
Qed.

Lemma additional_features_converted_witness :
  dict_keys (additional_features sample_snapshot_0) = ["weight_extra"] /\
  dict_get (additional_features sample_snapshot_0) "weight_extra"
  = Some (Some (Long [1%nat] [9])).
Proof.
  destruct (additional_features_converted reference _ _ _ _ _ _ _ 0
              sample_snapshot_0 sample_constructed eq_refl)
    as [_ [Hkeys [Hvalues _]]].
  split; [exact Hkeys |].
  destruct (Hvalues "weight_extra"
              [int_array [1%nat] [9]; int_array [1%nat] [10]])
    as [a [w [Ha [_ [Hd [Hlong _]]]]]].
  - left. reflexivity.
  - apply option_Ok_eq in Ha. subst a.
    destruct (Hlong eq_refl) as [v [Hw [Hv _]]].
    apply option_Ok_eq in Hv. subst v w. exact Hd.
Defined.




(** ** Iteration *)



Lemma next_in_range (lib : library) (self : DynamicGraphTemporalSignalBatch)
    (cursor : Z) (snapshot : Batch) :
  t self = Some cursor -> cursor < len (features self) ->
  __get_item__ lib self cursor = Ok snapshot ->
  __next__ lib self = (Ok snapshot, set_t self (cursor + 1)).
Proof.
  intros Ht Hc Hs. unfold __next__. rewrite Ht.
  replace (cursor <? len (features self)) with true
    by (symmetry; apply Z.ltb_lt; lia).
  rewrite Hs. reflexivity.
Qed.

Lemma next_raises (lib : library) (self : DynamicGraphTemporalSignalBatch)
    (cursor : Z) (e : exception) :
  t self = Some cursor -> cursor < len (features self) ->
  __get_item__ lib self cursor = Raise e ->
  __next__ lib self = (Raise e, self).
Proof.
  intros Ht Hc Hs. unfold __next__. rewrite Ht.
  replace (cursor <? len (features self)) with true
    by (symmetry; apply Z.ltb_lt; lia).
  rewrite Hs. reflexivity.
Qed.

Lemma next_at_end (lib : library) (self : DynamicGraphTemporalSignalBatch)
    (cursor : Z) :
  t self = Some cursor -> len (features self) <= cursor ->
  __next__ lib self = (Raise StopIteration, set_t self 0).
Proof.
  intros Ht Hc. unfold __next__. rewrite Ht.
  replace (cursor <? len (features self)) with false
    by (symmetry; apply Z.ltb_ge; lia).
  reflexivity.
Qed.






Lemma sample_iteration :
  iterate reference 3 sample
  = Some (Ok [sample_snapshot_0; sample_snapshot_1], set_t sample 0).
Proof. reflexivity. Qed.


(** ** Rounding a representable number

    [binary_round] returns the number it is given when that number is of the
    format, however its mantissa and exponent are written. *)

Lemma digits2_pos_bounds (p : positive) :
  2 ^ (Zpos (digits2_pos p) - 1) <= Zpos p < 2 ^ Zpos (digits2_pos p).
Proof.
  induction p as [p IH | p IH |]; cbn [digits2_pos].
  - rewrite Pos2Z.inj_succ, Z.pow_succ_r by lia.
    replace (Z.succ (Zpos (digits2_pos p)) - 1)
      with (Z.succ (Zpos (digits2_pos p) - 1)) by lia.
    rewrite Z.pow_succ_r by lia. change (Zpos p~1) with (2 * Zpos p + 1).
    revert IH. generalize (2 ^ (Zpos (digits2_pos p) - 1)).
    generalize (2 ^ Zpos (digits2_pos p)). intros; lia.
  - rewrite Pos2Z.inj_succ, Z.pow_succ_r by lia.
    replace (Z.succ (Zpos (digits2_pos p)) - 1)
      with (Z.succ (Zpos (digits2_pos p) - 1)) by lia.
    rewrite Z.pow_succ_r by lia. change (Zpos p~0) with (2 * Zpos p).
    revert IH. generalize (2 ^ (Zpos (digits2_pos p) - 1)).
    generalize (2 ^ Zpos (digits2_pos p)). intros; lia.
  - simpl. lia.
Qed.

Lemma shifted_digits (m m' : positive) (a b : Z) :
  0 <= a -> 0 <= b -> Zpos m * 2 ^ a = Zpos m' * 2 ^ b ->
  Zpos (digits2_pos m) + a = Zpos (digits2_pos m') + b.
Proof.
  intros Ha Hb Heq.
  pose proof (digits2_pos_bounds m) as [Hlo Hhi].
  pose proof (digits2_pos_bounds m') as [Hlo' Hhi'].
  set (D := Zpos (digits2_pos m)) in *. set (D' := Zpos (digits2_pos m')) in *.
  assert (HD : 0 < D) by (unfold D; lia).
  assert (HD' : 0 < D') by (unfold D'; lia).
  assert (Hpa : 0 < 2 ^ a) by (apply Z.pow_pos_nonneg; lia).
  assert (Hpb : 0 < 2 ^ b) by (apply Z.pow_pos_nonneg; lia).
  assert (H1 : 2 ^ (D - 1 + a) < 2 ^ (D' + b)).
  { rewrite !Z.pow_add_r by lia. nia. }
  assert (H2 : 2 ^ (D' - 1 + b) < 2 ^ (D + a)).
  { rewrite !Z.pow_add_r by lia. nia. }
  apply Z.pow_lt_mono_r_iff in H1; [| lia | lia].
  apply Z.pow_lt_mono_r_iff in H2; [| lia | lia].
  lia.
Qed.

Lemma iter_xO (d : positive) (m : positive) :
  Zpos (Pos.iter xO m d) = Zpos m * 2 ^ Zpos d.
Proof.
  induction d as [| d IH] using Pos.peano_ind.
  - simpl. lia.
  - rewrite Pos.iter_succ.
    change (Zpos (Pos.iter xO m d)~0) with (2 * Zpos (Pos.iter xO m d)).
    rewrite IH, Pos2Z.inj_succ, Z.pow_succ_r by lia. lia.
Qed.

Lemma shr_1_double (z : Z) :
  shr_1 (Build_shr_record (2 * z) false false) = Build_shr_record z false false.
Proof. destruct z; reflexivity. Qed.

Lemma iter_shr_1 (n : positive) :
  forall z, iter_pos shr_1 n (Build_shr_record (z * 2 ^ Zpos n) false false)
            = Build_shr_record z false false.
Proof.
  induction n as [n IH | n IH |]; intros z; cbn [iter_pos].
  - change (Zpos n~1) with (2 * Zpos n + 1).
    replace (z * 2 ^ (2 * Zpos n + 1)) with (2 * ((z * 2 ^ Zpos n) * 2 ^ Zpos n)).
    + rewrite shr_1_double, IH, IH. reflexivity.
    + rewrite Z.pow_add_r, Z.pow_1_r by lia.
      replace (2 * Zpos n) with (Zpos n + Zpos n) by lia.
      rewrite Z.pow_add_r by lia. lia.
  - change (Zpos n~0) with (2 * Zpos n).
    replace (z * 2 ^ (2 * Zpos n)) with ((z * 2 ^ Zpos n) * 2 ^ Zpos n).
    + rewrite IH, IH. reflexivity.
    + replace (2 * Zpos n) with (Zpos n + Zpos n) by lia.
      rewrite Z.pow_add_r by lia. lia.
  - rewrite Z.pow_1_r, Z.mul_comm. apply shr_1_double.
Qed.

Section Round.
Variables prec emax : Z.

Lemma binary_round_aux_exact (s : bool) (mx : Z) (ex : Z) (m' : positive) (e' : Z) :
  shr_fexp prec emax mx ex loc_Exact = (Build_shr_record (Zpos m') false false, e') ->
  bounded prec emax m' e' = true ->
  binary_round_aux prec emax s mx ex loc_Exact = S754_finite s m' e'.
Proof.
  unfold bounded, canonical_mantissa. rewrite andb_true_iff.
  intros Hshr [Hcanon Hmax]. apply Z.eqb_eq in Hcanon.
  unfold binary_round_aux. rewrite Hshr.
  cbn [shr_m loc_of_shr_record round_nearest_even].
  unfold shr_fexp. cbn [Zdigits2 shr_record_of_loc].
  rewrite Hcanon, Z.sub_diag. cbn [shr shr_m]. rewrite Hmax. reflexivity.
Qed.

Lemma binary_round_exact (s : bool) (m : positive) (e : Z) (m' : positive) (e' : Z) :
  bounded prec emax m' e' = true ->
  Zpos m * 2 ^ (e - Z.min e e') = Zpos m' * 2 ^ (e' - Z.min e e') ->
  binary_round prec emax s m e = S754_finite s m' e'.
Proof.
  intros Hb Heq.
  assert (Hcanon : fexp prec emax (Zpos (digits2_pos m') + e') = e').
  { unfold bounded, canonical_mantissa in Hb. apply andb_true_iff in Hb.
    destruct Hb as [Hc _]. apply Z.eqb_eq in Hc. exact Hc. }
  assert (Hdigits : Zpos (digits2_pos m) + e = Zpos (digits2_pos m') + e').
  { assert (Ha : 0 <= e - Z.min e e') by lia.
    assert (Hb' : 0 <= e' - Z.min e e') by lia.
    pose proof (shifted_digits m m' _ _ Ha Hb' Heq). lia. }
  unfold binary_round. rewrite Hdigits, Hcanon. unfold shl_align.
  destruct (e' - e) as [| n | d] eqn:Hdiff.
  - assert (e' = e) by lia. subst e'.
    rewrite Z.min_id, Z.sub_diag, Z.pow_0_r, !Z.mul_1_r in Heq.
    inversion Heq; subst m'.
    apply binary_round_aux_exact; [| exact Hb].
    unfold shr_fexp. cbn [Zdigits2 shr_record_of_loc].
    rewrite Hcanon, Z.sub_diag. reflexivity.
  - apply binary_round_aux_exact; [| exact Hb].
    unfold shr_fexp. cbn [Zdigits2 shr_record_of_loc].
    rewrite Hdigits, Hcanon, Hdiff. cbn [shr].
    rewrite Z.min_l in Heq by lia.
    rewrite Z.sub_diag, Z.pow_0_r, Z.mul_1_r, Hdiff in Heq.
    rewrite Heq, iter_shr_1. f_equal. lia.
  - rewrite Z.min_r in Heq by lia.
    rewrite Z.sub_diag, Z.pow_0_r, Z.mul_1_r in Heq.
    replace (e - e') with (Zpos d) in Heq by lia.
    rewrite <- iter_xO in Heq. inversion Heq as [Hm]. rewrite Hm.
    apply binary_round_aux_exact; [| exact Hb].
    unfold shr_fexp. cbn [Zdigits2 shr_record_of_loc].
    rewrite Hcanon, Z.sub_diag. reflexivity.
Qed.
End Round.

(** ** Casts of representable elements *)

Lemma number_eqb_Z (z z' : Z) :
  number_eqb (number_of_Z z) (number_of_Z z') = true <-> z = z'.
Proof.
  unfold number_of_Z, number_eqb. simpl. rewrite !Z.mul_1_r. apply Z.eqb_eq.
Qed.

Lemma wrap_int64_keeps (z : Z) :
  representable_int64 (number_of_Z z) ->
  number_eqb (number_of_Z z) (number_of_Z (wrap_int64 z)) = true.
Proof.
  intros [z' [Hrange Heq]]. apply number_eqb_Z in Heq. subst z'.
  rewrite wrap_int64_id by exact Hrange. apply number_eqb_Z. reflexivity.
Qed.

Lemma int64_of_bool_keeps (b : bool) :
  number_eqb (number_of_bool b) (number_of_Z (int64_of_bool b)) = true.
Proof. destruct b; reflexivity. Qed.

Lemma shiftr_exact (m q n : Z) : 0 < n -> m = q * 2 ^ n -> Z.shiftr m n = q.
Proof.
  intros Hn ->. rewrite Z.shiftr_div_pow2 by lia.
  apply Z.div_mul. apply Z.pow_nonzero; lia.
Qed.

Lemma truncate_representable (f : spec_float) :
  representable_int64 (number_of_float f) ->
  exists i, truncate f = Some i /\ in_int64 i = true /\
            number_eqb (number_of_float f) (number_of_Z i) = true.
Proof.
  intros [z [Hrange Heq]].
  destruct f as [s | s | | s m e]; try discriminate Heq.
  - exists 0. repeat split; reflexivity.
  - exists z. split; [| split; [exact Hrange | exact Heq]].
    unfold number_of_float, number_of_Z, number_eqb in Heq.
    apply Z.eqb_eq in Heq.
    unfold truncate. f_equal.
    destruct (Z.ltb_spec e 0) as [He | He].
    + rewrite Z.min_l, Z.sub_diag, Z.pow_0_r, Z.mul_1_r in Heq by lia.
      replace (0 - e) with (- e) in Heq by lia.
      destruct s; unfold cond_Zopp in *.
      * rewrite (shiftr_exact (Zpos m) (- z) (- e)); lia.
      * rewrite (shiftr_exact (Zpos m) z (- e)); lia.
    + rewrite Z.min_r, Z.sub_diag, Z.pow_0_r, Z.mul_1_r, Z.sub_0_r in Heq
        by lia.
      rewrite Z.shiftl_mul_pow2 by lia.
      destruct s; unfold cond_Zopp in *; lia.
Qed.

Lemma float32_of_Z_keeps (z : Z) :
  representable_float32 (number_of_Z z) ->
  number_eqb (number_of_Z z) (number_of_float (float32_of_Z z)) = true.
Proof.
  intros [g [Hvalid Heq]]. unfold float32_of_Z, binary_normalize.
  destruct z as [| m | m]; [reflexivity | |];
    (destruct g as [s' | s' | | s' m' e'];
     [ unfold number_of_Z, number_of_float, number_eqb in Heq;
       apply Z.eqb_eq in Heq; exfalso;
       assert (0 < 2 ^ (0 - Z.min 0 0)) by (apply Z.pow_pos_nonneg; lia); nia
     | discriminate Heq | discriminate Heq | ]).
  - assert (Hs : s' = false).
    { destruct s'; [| reflexivity]. exfalso.
      unfold number_of_Z, number_of_float, number_eqb, cond_Zopp in Heq.
      apply Z.eqb_eq in Heq.
      assert (0 < 2 ^ (0 - Z.min 0 e')) by (apply Z.pow_pos_nonneg; lia).
      assert (0 < 2 ^ (e' - Z.min 0 e')) by (apply Z.pow_pos_nonneg; lia).
      nia. }
    subst s'. rewrite (binary_round_exact 24 128 false m 0 m' e').
    + exact Heq.
    + exact Hvalid.
    + unfold number_of_Z, number_of_float, number_eqb, cond_Zopp in Heq.
      apply Z.eqb_eq in Heq. exact Heq.
  - assert (Hs : s' = true).
    { destruct s'; [reflexivity |]. exfalso.
      unfold number_of_Z, number_of_float, number_eqb, cond_Zopp in Heq.
      apply Z.eqb_eq in Heq.
      assert (0 < 2 ^ (0 - Z.min 0 e')) by (apply Z.pow_pos_nonneg; lia).
      assert (0 < 2 ^ (e' - Z.min 0 e')) by (apply Z.pow_pos_nonneg; lia).
      nia. }
    subst s'. rewrite (binary_round_exact 24 128 true m 0 m' e').
    + exact Heq.
    + exact Hvalid.
    + unfold number_of_Z, number_of_float, number_eqb, cond_Zopp in Heq.
      apply Z.eqb_eq in Heq. lia.
Qed.

Lemma float32_of_bool_keeps (b : bool) :
  number_eqb (number_of_bool b) (number_of_float (float32_of_bool b)) = true.
Proof. destruct b; reflexivity. Qed.

Lemma float32_of_float_keeps (f : spec_float) :
  representable_float32 (number_of_float f) ->
  number_eqb (number_of_float f) (number_of_float (float32_of_float f)) = true.
Proof.
  intros [g [Hvalid Heq]].
  destruct f as [s | s | | s m e].
  - reflexivity.
  - destruct s; reflexivity.
  - discriminate Heq.
  - unfold float32_of_float.
    destruct g as [s' | s' | | s' m' e']; try discriminate Heq.
    + unfold number_of_float, number_eqb in Heq. apply Z.eqb_eq in Heq.
      exfalso.
      assert (0 < 2 ^ (e - Z.min e 0)) by (apply Z.pow_pos_nonneg; lia).
      destruct s; unfold cond_Zopp in Heq; nia.
    + assert (Hs : s' = s).
      { unfold number_of_float, number_eqb in Heq. apply Z.eqb_eq in Heq.
        assert (0 < 2 ^ (e - Z.min e e')) by (apply Z.pow_pos_nonneg; lia).
        assert (0 < 2 ^ (e' - Z.min e e')) by (apply Z.pow_pos_nonneg; lia).
        destruct s, s'; unfold cond_Zopp in Heq; try reflexivity;
          exfalso; nia. }
      subst s'. rewrite (binary_round_exact 24 128 s m e m' e').
      * exact Heq.
      * exact Hvalid.
      * unfold number_of_float, number_eqb in Heq. apply Z.eqb_eq in Heq.
        destruct s; unfold cond_Zopp in Heq; lia.
Qed.

(** ** Shapes and values of the converted arrays *)

Lemma Forall2_casts {A B : Type} (P : number -> Prop) (value : A -> number)
    (value' : B -> number) (cast : A -> B) (l : list A) :
  (forall a, P (value a) -> number_eqb (value a) (value' (cast a)) = true) ->
  Forall2 (fun n n' => P n -> number_eqb n n' = true)
    (map value l) (map value' (map cast l)).
Proof.
  intros H. induction l as [| a l IH]; simpl; constructor.
  - apply H.
  - exact IH.
Qed.

Lemma Forall2_all_equal (P : number -> Prop) (l l' : list number) :
  Forall2 (fun n n' => P n -> number_eqb n n' = true) l l' ->
  Forall P l -> all_equal l l' = true.
Proof.
  induction 1 as [| n n' l l' Hn _ IH]; intros Hall; [reflexivity |].
  inversion Hall; subst. simpl.
  rewrite Hn by assumption. rewrite IH by assumption. reflexivity.
Qed.

Lemma wf_Ints_representable (a : ndarray) :
  kind (dtype a) = "i" -> wf_ndarray a = true ->
  Forall representable_int64 (array_values a).
Proof.
  intros Hkind Hwf. destruct (proj1 (kind_i a) Hkind) as [zs Hzs].
  unfold wf_ndarray, array_values in *. rewrite Hzs in *.
  apply andb_true_iff in Hwf. destruct Hwf as [_ Hall].
  rewrite forallb_forall in Hall. apply Forall_forall.
  intros n Hn. apply in_map_iff in Hn. destruct Hn as [z [<- Hz]].
  exists z. split; [apply Hall; exact Hz | apply number_eqb_Z; reflexivity].
Qed.

Lemma not_a_number_int64 : ~ representable_int64 NotANumber.
Proof. intros [z [_ H]]. discriminate H. Qed.

Lemma not_a_number_float32 : ~ representable_float32 NotANumber.
Proof. intros [g [_ H]]. discriminate H. Qed.

Lemma Forall2_not_a_number {B : Type} (P : number -> Prop)
    (value : B -> number) (data : list B) :
  ~ P NotANumber ->
  Forall2 (fun n n' => P n -> number_eqb n n' = true)
    (repeat NotANumber (List.length data)) (map value data).
Proof.
  intros Hnot. induction data as [| z data IH]; simpl; constructor.
  - intros H. contradiction.
  - exact IH.
Qed.

Lemma Forall2_truncated (fs : list spec_float) (data : list Z) :
  Forall2 (fun f z => forall i, truncate f = Some i ->
                                in_int64 i = true -> z = i) fs data ->
  Forall2 (fun n n' => representable_int64 n -> number_eqb n n' = true)
    (map number_of_float fs) (map number_of_Z data).
Proof.
  induction 1 as [| f z fs data Hz _ IH]; simpl; constructor.
  - intros Hrep.
    destruct (truncate_representable f Hrep) as [i [Hi [Hrange Heq]]].
    rewrite (Hz i Hi Hrange). exact Heq.
  - exact IH.
Qed.

(** An integer tensor of the shape of the array that holds its elements,
    cast. *)
Lemma long_keeps (a : ndarray) (data : list Z) :
  long_data (buffer a) data -> conversion_keeps a (Long (shape a) data).
Proof.
  intros Hdata.
  assert (Hnumel : List.length data = size a).
  { unfold size. destruct (buffer a) as [bs | zs | zs | fs | k count];
      simpl in Hdata; subst; rewrite ?length_map; try reflexivity.
    symmetry. apply (Forall2_length Hdata). }
  assert (Heach : Forall2 (fun n n' => representable_int64 n ->
                                       number_eqb n n' = true)
                    (array_values a) (map number_of_Z data)).
  { unfold array_values.
    destruct (buffer a) as [bs | zs | zs | fs | k count]; simpl in Hdata.
    - subst data. apply Forall2_casts. intros b _. apply int64_of_bool_keeps.
    - subst data. apply Forall2_casts. apply wrap_int64_keeps.
    - subst data. apply Forall2_casts. apply wrap_int64_keeps.
    - apply Forall2_truncated. exact Hdata.
    - subst count. apply Forall2_not_a_number. apply not_a_number_int64. }
  split; [reflexivity |]. split; [exact Hnumel |]. split; [exact Hdata |].
  split; [exact Heach |]. split.
  - apply Forall2_all_equal. exact Heach.
  - intros _ Hkind Hwf. apply (Forall2_all_equal _ _ _ Heach).
    apply wf_Ints_representable; assumption.
Qed.

(** A floating-point tensor of the shape of the array that holds its
    elements, cast. *)
Lemma float_keeps (a : ndarray) (data : list spec_float) :
  float_data (buffer a) data -> conversion_keeps a (Float (shape a) data).
Proof.
  intros Hdata.
  assert (Hnumel : List.length data = size a).
  { unfold size. destruct (buffer a) as [bs | zs | zs | fs | k count];
      simpl in Hdata; subst; rewrite ?length_map; reflexivity. }
  assert (Heach : Forall2 (fun n n' => representable_float32 n ->
                                       number_eqb n n' = true)
                    (array_values a) (map number_of_float data)).
  { unfold array_values.
    destruct (buffer a) as [bs | zs | zs | fs | k count]; simpl in Hdata.
    - subst data. apply Forall2_casts. intros b _. apply float32_of_bool_keeps.
    - subst data. apply Forall2_casts. apply float32_of_Z_keeps.
    - subst data. apply Forall2_casts. apply float32_of_Z_keeps.
    - subst data. apply Forall2_casts. apply float32_of_float_keeps.
    - subst count. apply Forall2_not_a_number. apply not_a_number_float32. }
  split; [reflexivity |]. split; [exact Hnumel |]. split; [exact Hdata |].
  split; [exact Heach |]. split.
  - apply Forall2_all_equal. exact Heach.
  - intros H. discriminate H.
Qed.

Lemma LongTensor_keeps (lib : library) (a : ndarray) (v : tensor) :
  conforms lib -> torch.LongTensor lib a = Ok v -> shape a <> [] ->
  conversion_keeps a v.
Proof.
  intros Hlib Hv Hshape. apply call_Ok in Hv.
  destruct (LongTensor_array lib Hlib a v Hv Hshape) as [data [-> Hdata]].
  apply long_keeps. exact Hdata.
Qed.

Lemma FloatTensor_keeps (lib : library) (a : ndarray) (v : tensor) :
  conforms lib -> torch.FloatTensor lib a = Ok v -> shape a <> [] ->
  conversion_keeps a v.
Proof.
  intros Hlib Hv Hshape. apply call_Ok in Hv.
  destruct (FloatTensor_array lib Hlib a v Hv Hshape) as [data [-> Hdata]].
  apply float_keeps. exact Hdata.
Qed.

Lemma convert_by_kind_keeps (lib : library) (a : ndarray) (v : tensor) :
  conforms lib -> convert_by_kind lib a = Ok (Some v) -> shape a <> [] ->
  conversion_keeps a v.
Proof.
  intros Hlib H Hshape. unfold convert_by_kind in H.
  destruct (String.eqb _ "i").
  - bind_inv H. inversion H; subst.
    apply (LongTensor_keeps lib a v Hlib); assumption.
  - destruct (String.eqb _ "f"); [| discriminate].
    bind_inv H. inversion H; subst.
    apply (FloatTensor_keeps lib a v Hlib); assumption.
Qed.

(** C7, as the code has it: in the snapshot that [__get_item__] returns, for
    a core entry that is an array of at least one dimension, the tensor has
    the shape of the array and as many elements, and holds the elements of
    the array cast to its element type (int64 for edge indices, batch vectors
    and targets of kind ["i"]; binary32 for edge weights, features and
    targets of kind ["f"]): to binary32 by rounding to the nearest number,
    ties to even; a floating-point number to int64 by cutting it to its
    integer part when that fits.  An element whose value is representable in
    the element type keeps its value, so an array of signed integers that
    becomes an integer tensor keeps all its values. *)
Theorem conversion_keeps_shape_and_values (lib : library)
    (edge_indices : Edge_Indices)
    (edge_weights : Edge_Weights) (features : Node_Features)
    (targets : Targets) (batches : Batches) (kwargs : keywords)
    (self : DynamicGraphTemporalSignalBatch) (time_index : Z)
    (snapshot : Batch) :
  conforms lib ->
  __init__ edge_indices edge_weights features targets batches kwargs = Ok self ->
  __get_item__ lib self time_index = Ok snapshot ->
  (forall a, getitem edge_indices time_index = Ok (Some a) ->
     exists v, edge_index snapshot = Some v /\ is_long v = true /\
               (shape a <> [] -> conversion_keeps a v)) /\
  (forall a, getitem edge_weights time_index = Ok (Some a) ->
     exists v, edge_attr snapshot = Some v /\ is_float v = true /\
               (shape a <> [] -> conversion_keeps a v)) /\
  (forall a, getitem features time_index = Ok (Some a) ->
     exists v, x snapshot = Some v /\ is_float v = true /\
               (shape a <> [] -> conversion_keeps a v)) /\
  (forall a, getitem batches time_index = Ok (Some a) ->
     exists v, batch snapshot = Some v /\ is_long v = true /\
               (shape a <> [] -> conversion_keeps a v)) /\
  (forall a v, getitem targets time_index = Ok (Some a) ->
     y snapshot = Some v -> shape a <> [] -> conversion_keeps a v).
Proof.
  intros Hlib Hinit Hs. constructed Hinit Hvalid.
  apply get_item_fields in Hs. simpl in Hs.
  destruct Hs as (e1 & e2 & e3 & e4 & e5 & H1 & H2 & H3 & H4 & H5 & _
                  & Hx & Hei & Hea & Hb & Hy).
  rewrite H1, H2, H3, H4, H5.
  assert (HL : forall a v, torch.LongTensor lib a = Ok v -> is_long v = true).
  { intros a v Hv. apply call_Ok in Hv. apply (LongTensor_long lib Hlib a v Hv). }
  assert (HF : forall a v, torch.FloatTensor lib a = Ok v -> is_float v = true).
  { intros a v Hv. apply call_Ok in Hv. apply (FloatTensor_float lib Hlib a v Hv). }
  split; [| split; [| split; [| split]]].
  - intros a Ha. apply option_Ok_eq in Ha. subst e2.
    destruct (convert_entry_Some _ _ _ Hei) as [v [Hw Hv]].
    exists v. split; [exact Hw |]. split; [apply (HL a v Hv) |].
    apply (LongTensor_keeps lib a v Hlib Hv).
  - intros a Ha. apply option_Ok_eq in Ha. subst e3.
    destruct (convert_entry_Some _ _ _ Hea) as [v [Hw Hv]].
    exists v. split; [exact Hw |]. split; [apply (HF a v Hv) |].
    apply (FloatTensor_keeps lib a v Hlib Hv).
  - intros a Ha. apply option_Ok_eq in Ha. subst e1.
    destruct (convert_entry_Some _ _ _ Hx) as [v [Hw Hv]].
    exists v. split; [exact Hw |]. split; [apply (HF a v Hv) |].
    apply (FloatTensor_keeps lib a v Hlib Hv).
  - intros a Ha. apply option_Ok_eq in Ha. subst e4.
    destruct (convert_entry_Some _ _ _ Hb) as [v [Hw Hv]].
    exists v. split; [exact Hw |]. split; [apply (HL a v Hv) |].
    apply (LongTensor_keeps lib a v Hlib Hv).
  - intros a v Ha Hv Hshape. apply option_Ok_eq in Ha. subst e5.
    simpl in Hy. rewrite Hv in Hy.
    apply (convert_by_kind_keeps lib a v Hlib Hy Hshape).
Qed.

Lemma conversion_keeps_shape_and_values_witness :
  exists v w,
    edge_index sample_snapshot_1 = Some v /\
    tensor_shape v = [1; 2]%nat /\
    same_values (int_array [1; 2]%nat [0; 1]) v = true /\
    x sample_snapshot_1 = Some w /\
    same_values (float_array [1; 1]%nat [binary64 2 0]) w = true.
Proof.
  destruct (conversion_keeps_shape_and_values reference _ _ _ _ _ _ _ 1
              sample_snapshot_1 reference_conforms sample_constructed eq_refl)
    as [Hei [_ [Hx _]]].
  destruct (Hei (int_array [1; 2]%nat [0; 1]) eq_refl) as [v [Hv [_ Hkeeps]]].
  destruct Hkeeps as [Hshape [_ [_ [_ [_ Hints]]]]]; [discriminate |].
  destruct (Hx (float_array [1; 1]%nat [binary64 2 0]) eq_refl)
    as [w [Hw [_ Hkeeps]]].
  destruct Hkeeps as [_ [_ [_ [_ [Hall _]]]]]; [discriminate |].
  inversion Hv; subst v. inversion Hw; subst w.
  eexists. eexists.
  split; [reflexivity |]. split; [reflexivity |].
  split; [apply Hints; reflexivity |]. split; [reflexivity |].
  apply Hall. constructor; [| constructor].
  exists (S754_finite false 8388608 (-22)). split; reflexivity.
Defined.

(** The conversions that lose the value or the shape: 0.1 as a feature is
    rounded to the nearest binary32 number; the integer feature 2^24 + 1 is
    rounded to 2^24; the edge indices 0.5 and 1.5 are cut to 0 and 1: in
    each of the three the shape is kept and the values differ.  The integer
    0 as an edge index array of no dimension is read as a size: the tensor
    has shape [(0,)] and no element. *)
Lemma conversion_changes_values :
  (exists self snapshot v,
      __init__ [None] [None] tenth_features [None] [None] no_kwargs = Ok self /\
      wf_ndarray (float_array [1%nat] [tenth]) = true /\
      __get_item__ reference self 0 = Ok snapshot /\
      x snapshot = Some v /\
      v = Float [1%nat] [S754_finite false 13421773 (-27)] /\
      same_values (float_array [1%nat] [tenth]) v = false) /\
  (exists self snapshot v,
      __init__ [None] [None] odd_features [None] [None] no_kwargs = Ok self /\
      wf_ndarray (int_array [1%nat] [16777217]) = true /\
      __get_item__ reference self 0 = Ok snapshot /\
      x snapshot = Some v /\
      v = Float [1%nat] [S754_finite false 8388608 1] /\
      same_values (int_array [1%nat] [16777217]) v = false) /\
  (exists self snapshot v,
      __init__ half_edge_indices [None] [None] [None] [None] no_kwargs
      = Ok self /\
      wf_ndarray (float_array [2; 1]%nat [binary64 1 (-1); binary64 3 (-1)])
      = true /\
      __get_item__ reference self 0 = Ok snapshot /\
      edge_index snapshot = Some v /\
      v = Long [2; 1]%nat [0; 1] /\
      same_values (float_array [2; 1]%nat [binary64 1 (-1); binary64 3 (-1)]) v
      = false) /\
  (exists self snapshot v,
      __init__ zero_edge_indices [None] [None] [None] [None] no_kwargs
      = Ok self /\
      wf_ndarray zero = true /\
      __get_item__ reference self 0 = Ok snapshot /\
      edge_index snapshot = Some v /\
      v = Long [0%nat] [] /\
      tensor_shape v <> shape zero /\
      numel v <> size zero).
Proof.
  split; [| split; [| split]]; eexists; eexists; eexists;
    (split; [reflexivity |]); (split; [reflexivity |]);
    (split; [reflexivity |]); (split; [reflexivity |]);
    (split; [reflexivity |]).
  - reflexivity.
  - reflexivity.
  - reflexivity.
  - split; discriminate.
Qed.

(** * Further properties of the class *)

(** ** Construction *)





(** ** The cursor *)



Lemma reachable_states (lib : library)
    (self0 self : DynamicGraphTemporalSignalBatch) :
  t self0 = None -> reachable lib self0 self ->
  self = self0 \/
  exists cursor, 0 <= cursor <= len (features self0) /\ self = set_t self0 cursor.
Proof.
  intros Ht0 Hreach. pose proof (len_nonneg (features self0)) as HT.
  induction Hreach as [| self _ IH | self _ IH].
  - left. reflexivity.
  - right. exists 0. split; [lia |].
    destruct IH as [-> | [cursor [_ ->]]]; reflexivity.
  - destruct IH as [-> | [cursor [Hc ->]]].
    + left. unfold __next__. rewrite Ht0. reflexivity.
    + right. unfold __next__. cbn [t set_t].
      change (features (set_t self0 cursor)) with (features self0).
      destruct (Z.ltb_spec cursor (len (features self0))) as [Hlt | Hge].
      * destruct (__get_item__ lib (set_t self0 cursor) cursor)
          as [snapshot | e].
        -- exists (cursor + 1). split; [lia | reflexivity].
        -- exists cursor. split; [lia | reflexivity].
      * exists 0. split; [lia | reflexivity].
Qed.


Lemma sample_exhausted_reachable : reachable reference sample sample_exhausted.
Proof. repeat constructor. Qed.













(** What [next] does, by the cursor. *)
Lemma next_by_cursor (lib : library) (ei : Edge_Indices) (ew : Edge_Weights)
    (fs : Node_Features) (ts : Targets) (bs : Batches) (kwargs : keywords)
    (self0 self : DynamicGraphTemporalSignalBatch) :
  __init__ ei ew fs ts bs kwargs = Ok self0 ->
  reachable lib self0 self ->
  (t self = None /\ __next__ lib self = (Raise (AttributeError "t"), self)) \/
  (exists cursor,
      t self = Some cursor /\ 0 <= cursor < len fs /\
      ((exists snapshot,
          __get_item__ lib self0 cursor = Ok snapshot /\
          __next__ lib self = (Ok snapshot, set_t self0 (cursor + 1))) \/
       (exists e,
          __get_item__ lib self0 cursor = Raise (LibraryError e) /\
          __next__ lib self = (Raise (LibraryError e), self)))) \/
  (t self = Some (len fs) /\
   __next__ lib self = (Raise StopIteration, set_t self0 0)).
Proof.
  intros Hinit Hreach. pose proof (init_valid _ _ _ _ _ _ _ Hinit) as Hvalid.
  apply init_Ok in Hinit. destruct Hinit as [_ Hself0].
  assert (Ht0 : t self0 = None) by (rewrite Hself0; reflexivity).
  assert (HT : len (features self0) = len fs) by (rewrite Hself0; reflexivity).
  destruct (reachable_states lib self0 self Ht0 Hreach)
    as [-> | [cursor [Hc ->]]].
  - left. split; [exact Ht0 |]. unfold __next__. rewrite Ht0. reflexivity.
  - right. rewrite HT in Hc.
    destruct (Z_lt_ge_dec cursor (len fs)) as [Hlt | Hge].
    + left. exists cursor. split; [reflexivity |]. split; [lia |].
      destruct (library_outcome_cases _
                  (get_item_outcome lib self0 Hvalid cursor ltac:(lia)))
        as [[snapshot Hs] | [e He]].
      * left. exists snapshot. split; [exact Hs |].
        apply (next_in_range lib (set_t self0 cursor) cursor snapshot);
          [reflexivity | simpl; lia | exact Hs].
      * right. exists e. split; [exact He |].
        apply (next_raises lib (set_t self0 cursor) cursor);
          [reflexivity | simpl; lia | exact He].
    + right. assert (cursor = len fs) by lia. subst cursor.
      split; [reflexivity |].
      apply (next_at_end lib (set_t self0 (len fs)) (len fs)); [reflexivity |].
      change (features (set_t self0 (len fs))) with (features self0). lia.
Qed.



(** X9: the iterator does not stay exhausted.  Once [next] has raised
    [StopIteration], the following call of [next], with no [iter] in
    between, answers as [__get_item__] does at index 0 when the object has
    at least one time step: it returns the snapshot of index 0 and moves the
    cursor to 1, or raises what [__get_item__] raises there.  It raises
    [StopIteration] again when the object has no time step. *)
Theorem next_after_stop_restarts (lib : library) (ei : Edge_Indices)
    (ew : Edge_Weights)
    (fs : Node_Features) (ts : Targets) (bs : Batches) (kwargs : keywords)
    (self0 self : DynamicGraphTemporalSignalBatch) :
  __init__ ei ew fs ts bs kwargs = Ok self0 ->
  reachable lib self0 self ->
  fst (__next__ lib self) = Raise StopIteration ->
  (0 < len fs ->
   fst (__next__ lib (snd (__next__ lib self))) = __get_item__ lib self0 0 /\
   forall snapshot, __get_item__ lib self0 0 = Ok snapshot ->
     __next__ lib (snd (__next__ lib self)) = (Ok snapshot, set_t self0 1)) /\
  (len fs = 0 ->
   __next__ lib (snd (__next__ lib self))
   = (Raise StopIteration, set_t self0 0)).
Proof.
  intros Hinit Hreach Hstop.
  assert (Hnext : __next__ lib self = (Raise StopIteration, set_t self0 0)).
  { destruct (next_by_cursor lib _ _ _ _ _ _ _ _ Hinit Hreach)
      as [[_ H] | [[cursor [_ [_ [[snapshot [_ H]] | [e [_ H]]]]]] | [_ H]]];
      rewrite H in Hstop; try discriminate Hstop.
    exact H. }
  rewrite Hnext. cbn [snd].
  assert (Hreach0 : reachable lib self0 (set_t self0 0)).
  { replace (set_t self0 0) with (snd (__next__ lib self))
      by (rewrite Hnext; reflexivity).
    apply reachable_next. exact Hreach. }
  destruct (next_by_cursor lib _ _ _ _ _ _ _ _ Hinit Hreach0)
    as [[Ht _] | [[cursor [Ht [Hc Hcases]]] | [Ht Hend]]].
  - discriminate Ht.
  - inversion Ht; subst cursor. split.
    + intros _. destruct Hcases as [[snapshot [Hs H]] | [e [He H]]];
        rewrite H; cbn [fst].
      * split; [symmetry; exact Hs |].
        intros snapshot' Hs'. rewrite Hs in Hs'. inversion Hs'. reflexivity.
      * split; [symmetry; exact He |].
        intros snapshot' Hs'. rewrite He in Hs'. discriminate Hs'.
    + intros Hzero. lia.
  - inversion Ht as [Hzero]. split.
    + intros Hpos. lia.
    + intros _. exact Hend.
Qed.

Lemma next_after_stop_restarts_witness :
  __next__ reference (snd (__next__ reference sample_exhausted))
  = (Ok sample_snapshot_0, set_t sample 1).
Proof.
  destruct (next_after_stop_restarts reference _ _ _ _ _ _ _ _
              sample_constructed sample_exhausted_reachable eq_refl)
    as [Hrestart _].
  destruct Hrestart as [_ Hnext]; [reflexivity |].
  apply Hnext. reflexivity.
Defined.



(** ** No time step *)

Lemma len_0_nil {A : Type} (l : list A) : len l = 0 -> l = [].
Proof. destruct l; [reflexivity |]. unfold len. simpl. lia. Qed.

(** X11: empty input is accepted.  An object constructed with an empty
    list of features has all its lists empty and [snapshot_count] 0;
    [__get_item__] raises [IndexError] at every index, and a [for] loop ends
    at once without a snapshot. *)
Theorem no_time_step (lib : library) (ei : Edge_Indices) (ew : Edge_Weights)
    (ts : Targets) (bs : Batches) (kwargs : keywords)
    (self : DynamicGraphTemporalSignalBatch) :
  __init__ ei ew [] ts bs kwargs = Ok self ->
  (ei = [] /\ ew = [] /\ ts = [] /\ bs = [] /\
   forall key value, In (key, value) (items kwargs) -> value = []) /\
  snapshot_count self = Some 0 /\
  (forall time_index, __get_item__ lib self time_index = Raise IndexError) /\
  (forall fuel, (0 < fuel)%nat ->
     iterate lib fuel self = Some (Ok [], set_t self 0)).
Proof.
  intros Hinit. apply init_Ok in Hinit. destruct Hinit as [Hc ->].
  apply consistent_lengths_true in Hc. destruct Hc as [[H1 [H2 [H3 H4]]] H5].
  change (len (@nil (option ndarray))) with 0 in *.
  split.
  { repeat split; try (apply len_0_nil; lia).
    intros key value Hin. apply len_0_nil. apply (H5 key). exact Hin. }
  split; [reflexivity |]. split.
  - intros time_index. apply get_item_outside. simpl.
    change (len (@nil (option ndarray))) with 0. lia.
  - intros [| fuel] Hfuel; [lia |]. reflexivity.
Qed.

Lemma no_time_step_witness :
  exists self,
    __init__ [] [] [] [] [] no_kwargs = Ok self /\
    snapshot_count self = Some 0 /\
    __get_item__ reference self 0 = Raise IndexError /\
    iterate reference 1 self = Some (Ok [], set_t self 0).
Proof.
  eexists. split; [reflexivity |].
  destruct (no_time_step reference [] [] [] [] no_kwargs _ eq_refl)
    as [_ [Hcount [Hget Hloop]]].
  split; [exact Hcount |]. split; [apply Hget |].
  apply Hloop. constructor.
Defined.
